(** * Shallow embedding of mujinvisioncontrollerclient/visioncontrollerclient.py

    The client is a thin layer over a request/response transport
    ([zmqclient.ZmqClient]) and a subscriber.  The transport is external to
    the repository; its calls are arguments of the definitions below, so the
    theorems hold for every behaviour the transport may have. *)

From Stdlib Require Import String Ascii ZArith List Bool Lia.
Import ListNotations.
Open Scope string_scope.
Set Warnings "-register-all".

(** ** Python values

    The values that travel through the client: JSON-like data as Python
    holds it after [json.loads] or as the transport hands it over.  Finite
    floats are kept as decimal literals [PFloat m e] (value m * 10^e); only
    their truthiness and their being numbers matter to this file.  The
    infinities and NaN, which [json.loads] reads from [Infinity],
    [-Infinity] and [NaN], have constructors of their own.

    A [str] is held as its UTF-8 encoding.  The texts of the program are
    ASCII; the decoder below writes a [\uXXXX] escape as the UTF-8 bytes of
    its code point (a lone surrogate in the three-byte form of its range).
    [len], indexing and [list()] work on characters, see [str_chars]. *)

Inductive pyval : Type :=
| PNone
| PBool (b : bool)
| PInt (z : Z)
| PFloat (m : Z) (e : Z)
| PFloatInf (neg : bool)
| PFloatNaN
| PStr (s : string)
| PList (l : list pyval)
| PDict (d : list (string * pyval)).

(** Structural equality.  The program compares values only with a string
    ([response[0] == '{'], ['error' in] a list) or with [True] ([is True]),
    where structural equality is what Python computes. *)
Fixpoint pyval_eqb (a b : pyval) {struct a} : bool :=
  match a, b with
  | PNone, PNone => true
  | PBool x, PBool y => Bool.eqb x y
  | PInt x, PInt y => Z.eqb x y
  | PFloat m e, PFloat m' e' => Z.eqb m m' && Z.eqb e e'
  | PFloatInf x, PFloatInf y => Bool.eqb x y
  | PFloatNaN, PFloatNaN => true
  | PStr x, PStr y => String.eqb x y
  | PList xs, PList ys =>
      (fix go (xs ys : list pyval) : bool :=
         match xs, ys with
         | [], [] => true
         | x :: xs', y :: ys' => pyval_eqb x y && go xs' ys'
         | _, _ => false
         end) xs ys
  | PDict xs, PDict ys =>
      (fix go (xs ys : list (string * pyval)) : bool :=
         match xs, ys with
         | [], [] => true
         | (k, x) :: xs', (k', y) :: ys' =>
             String.eqb k k' && pyval_eqb x y && go xs' ys'
         | _, _ => false
         end) xs ys
  | _, _ => false
  end.

(** Python truthiness ([if x:]). *)
Definition truthy (v : pyval) : bool :=
  match v with
  | PNone => false
  | PBool b => b
  | PInt z => negb (Z.eqb z 0)
  | PFloat m _ => negb (Z.eqb m 0)
  | PFloatInf _ | PFloatNaN => true
  | PStr s => negb (String.eqb s "")
  | PList l => match l with [] => false | _ => true end
  | PDict d => match d with [] => false | _ => true end
  end.

(** [x is not None] *)
Definition is_not_none (v : pyval) : bool :=
  match v with PNone => false | _ => true end.

(** ** Python dicts with string keys

    An association list in insertion order.  Assigning an existing key
    replaces its value in place, a new key is appended, as in CPython. *)

Definition dict := list (string * pyval).

Fixpoint dict_get (d : dict) (k : string) : option pyval :=
  match d with
  | [] => None
  | (k', v) :: d' => if String.eqb k k' then Some v else dict_get d' k
  end.

Fixpoint dict_set (d : dict) (k : string) (v : pyval) : dict :=
  match d with
  | [] => [(k, v)]
  | (k', v') :: d' =>
      if String.eqb k k' then (k', v) :: d' else (k', v') :: dict_set d' k v
  end.

(** [d.update(other)] *)
Definition dict_update (d other : dict) : dict :=
  fold_left (fun acc kv => dict_set acc (fst kv) (snd kv)) other d.

Definition dict_keys (d : dict) : list string := map fst d.

(** [d.get(k, default)] *)
Definition dict_get_default (d : dict) (k : string) (default : pyval) : pyval :=
  match dict_get d k with Some v => v | None => default end.

(** ** A JSON decoder standing in for [json.loads]

    Recursive descent over the characters of the text, following CPython's
    [json] scanner with its defaults.  [None] is the [ValueError]
    ([JSONDecodeError]) that [json.loads] raises on malformed input.
    Objects are built by assigning their members in order, so a repeated
    key keeps its first position and its last value, as [dict] does.
    [NaN], [Infinity] and [-Infinity] are accepted, as [parse_constant]
    does by default.  Python's recursion limit, which makes nesting deep by
    hundreds of levels raise [RecursionError], is not modelled. *)

Definition is_ws (c : ascii) : bool :=
  match c with
  | " "%char | "009"%char | "010"%char | "013"%char => true
  | _ => false
  end.

Fixpoint skip_ws (s : list ascii) : list ascii :=
  match s with
  | c :: s' => if is_ws c then skip_ws s' else s
  | [] => []
  end.

Definition digit_val (c : ascii) : option Z :=
  let n := nat_of_ascii c in
  if (48 <=? n)%nat && (n <=? 57)%nat then Some (Z.of_nat (n - 48)) else None.

(** Reads a run of digits: (number of digits, accumulated value, rest). *)
Fixpoint read_digits (s : list ascii) (acc : Z) (cnt : nat)
  : nat * Z * list ascii :=
  match s with
  | c :: s' =>
      match digit_val c with
      | Some d => read_digits s' (acc * 10 + d)%Z (S cnt)
      | None => (cnt, acc, s)
      end
  | [] => (cnt, acc, s)
  end.

(** A JSON number: [-]? int frac? exp?, with no leading zero in [int].
    A number with a fraction or an exponent is a float. *)
Definition parse_number (s : list ascii) : option (pyval * list ascii) :=
  let '(neg, s1) :=
    match s with "-"%char :: s' => (true, s') | _ => (false, s) end in
  let '(n1, ipart, s2) := read_digits s1 0 0 in
  let leading_zero :=
    match s1 with "0"%char :: _ => (1 <? n1)%nat | _ => false end in
  if (n1 =? 0)%nat || leading_zero then None else
  let frac :=
    match s2 with
    | "."%char :: s' =>
        let '(n2, m, s'') := read_digits s' ipart 0 in
        if (n2 =? 0)%nat then None
        else Some (true, m, Z.opp (Z.of_nat n2), s'')
    | _ => Some (false, ipart, 0%Z, s2)
    end in
  match frac with
  | None => None
  | Some (isfloat, mant, exp, s3) =>
      let expo :=
        match s3 with
        | c :: s' =>
            if Ascii.eqb c "e"%char || Ascii.eqb c "E"%char then
              let '(eneg, s'') :=
                match s' with
                | "-"%char :: r => (true, r)
                | "+"%char :: r => (false, r)
                | _ => (false, s')
                end in
              let '(n3, ev, r) := read_digits s'' 0 0 in
              if (n3 =? 0)%nat then None
              else Some (true, (exp + (if eneg then Z.opp ev else ev))%Z, r)
            else Some (isfloat, exp, s3)
        | [] => Some (isfloat, exp, s3)
        end in
      match expo with
      | None => None
      | Some (isfloat', exp', s4) =>
          let m := if neg then Z.opp mant else mant in
          if isfloat' then Some (PFloat m exp', s4) else Some (PInt m, s4)
      end
  end.

Definition json_escape (c : ascii) : option ascii :=
  match c with
  | "034"%char => Some "034"%char
  | "\"%char => Some "\"%char
  | "/"%char => Some "/"%char
  | "b"%char => Some "008"%char
  | "f"%char => Some "012"%char
  | "n"%char => Some "010"%char
  | "r"%char => Some "013"%char
  | "t"%char => Some "009"%char
  | _ => None
  end.

Definition hex_val (c : ascii) : option Z :=
  let n := Z.of_nat (nat_of_ascii c) in
  if (48 <=? n)%Z && (n <=? 57)%Z then Some (n - 48)%Z
  else if (97 <=? n)%Z && (n <=? 102)%Z then Some (n - 87)%Z
  else if (65 <=? n)%Z && (n <=? 70)%Z then Some (n - 55)%Z
  else None.

(** The four hex digits of a [\uXXXX] escape. *)
Definition hex4 (a b c d : ascii) : option Z :=
  match hex_val a, hex_val b, hex_val c, hex_val d with
  | Some x, Some y, Some z, Some w => Some (x * 4096 + y * 256 + z * 16 + w)%Z
  | _, _, _, _ => None
  end.

Definition is_high_surrogate (u : Z) : bool := (55296 <=? u)%Z && (u <=? 56319)%Z.
Definition is_low_surrogate (u : Z) : bool := (56320 <=? u)%Z && (u <=? 57343)%Z.

Definition byte (z : Z) : ascii := ascii_of_nat (Z.to_nat z).

(** The UTF-8 bytes of a code point (at most 0x10FFFF). *)
Definition utf8_encode (u : Z) : string :=
  if (u <? 128)%Z then String (byte u) EmptyString
  else if (u <? 2048)%Z then
    String (byte (192 + Z.shiftr u 6)%Z)
      (String (byte (128 + Z.land u 63)%Z) EmptyString)
  else if (u <? 65536)%Z then
    String (byte (224 + Z.shiftr u 12)%Z)
      (String (byte (128 + Z.land (Z.shiftr u 6) 63)%Z)
        (String (byte (128 + Z.land u 63)%Z) EmptyString))
  else
    String (byte (240 + Z.shiftr u 18)%Z)
      (String (byte (128 + Z.land (Z.shiftr u 12) 63)%Z)
        (String (byte (128 + Z.land (Z.shiftr u 6) 63)%Z)
          (String (byte (128 + Z.land u 63)%Z) EmptyString))).

(** The body of a JSON string, after its opening quote.  A high surrogate
    escape followed by a low surrogate escape is one character; any other
    surrogate escape stands alone, as in [scanstring]. *)
Fixpoint parse_string (s : list ascii) : option (string * list ascii) :=
  match s with
  | [] => None
  | "034"%char :: r => Some (EmptyString, r)
  | "\"%char :: "u"%char :: h1 :: h2 :: h3 :: h4 :: r =>
      match hex4 h1 h2 h3 h4 with
      | None => None
      | Some u =>
          let single :=
            match parse_string r with
            | Some (str, r') => Some (utf8_encode u ++ str, r')
            | None => None
            end in
          if is_high_surrogate u then
            match r with
            | "\"%char :: "u"%char :: l1 :: l2 :: l3 :: l4 :: r2 =>
                match hex4 l1 l2 l3 l4 with
                | None => None
                | Some u2 =>
                    if is_low_surrogate u2 then
                      match parse_string r2 with
                      | Some (str, r') =>
                          Some (utf8_encode (65536 + (u - 55296) * 1024 + (u2 - 56320))%Z
                                ++ str, r')
                      | None => None
                      end
                    else single
                end
            | _ => single
            end
          else single
      end
  | "\"%char :: c :: r =>
      match json_escape c, parse_string r with
      | Some c', Some (str, r') => Some (String c' str, r')
      | _, _ => None
      end
  | c :: r =>
      if (nat_of_ascii c <? 32)%nat then None
      else match parse_string r with
           | Some (str, r') => Some (String c str, r')
           | None => None
           end
  end.

Fixpoint parse_value (fuel : nat) (s : list ascii)
  : option (pyval * list ascii) :=
  match fuel with
  | O => None
  | S f =>
      match skip_ws s with
      | "{"%char :: r =>
          match skip_ws r with
          | "}"%char :: r' => Some (PDict [], r')
          | _ => parse_members f [] r
          end
      | "["%char :: r =>
          match skip_ws r with
          | "]"%char :: r' => Some (PList [], r')
          | _ => parse_elements f [] r
          end
      | "034"%char :: r =>
          match parse_string r with
          | Some (str, r') => Some (PStr str, r')
          | None => None
          end
      | "n"%char :: "u"%char :: "l"%char :: "l"%char :: r => Some (PNone, r)
      | "t"%char :: "r"%char :: "u"%char :: "e"%char :: r => Some (PBool true, r)
      | "f"%char :: "a"%char :: "l"%char :: "s"%char :: "e"%char :: r =>
          Some (PBool false, r)
      | "N"%char :: "a"%char :: "N"%char :: r => Some (PFloatNaN, r)
      | "I"%char :: "n"%char :: "f"%char :: "i"%char :: "n"%char :: "i"%char
          :: "t"%char :: "y"%char :: r => Some (PFloatInf false, r)
      | "-"%char :: "I"%char :: "n"%char :: "f"%char :: "i"%char :: "n"%char
          :: "i"%char :: "t"%char :: "y"%char :: r => Some (PFloatInf true, r)
      | r => parse_number r
      end
  end
(** Members of an object, after its [{]; [acc] holds the members read. *)
with parse_members (fuel : nat) (acc : dict) (s : list ascii)
  : option (pyval * list ascii) :=
  match fuel with
  | O => None
  | S f =>
      match skip_ws s with
      | "034"%char :: r =>
          match parse_string r with
          | Some (key, r1) =>
              match skip_ws r1 with
              | ":"%char :: r2 =>
                  match parse_value f r2 with
                  | Some (v, r3) =>
                      let acc' := dict_set acc key v in
                      match skip_ws r3 with
                      | ","%char :: r4 => parse_members f acc' r4
                      | "}"%char :: r4 => Some (PDict acc', r4)
                      | _ => None
                      end
                  | None => None
                  end
              | _ => None
              end
          | None => None
          end
      | _ => None
      end
  end
(** Elements of an array, after its [[]. *)
with parse_elements (fuel : nat) (acc : list pyval) (s : list ascii)
  : option (pyval * list ascii) :=
  match fuel with
  | O => None
  | S f =>
      match parse_value f s with
      | Some (v, r) =>
          match skip_ws r with
          | ","%char :: r' => parse_elements f (acc ++ [v]) r'
          | "]"%char :: r' => Some (PList (acc ++ [v]), r')
          | _ => None
          end
      | None => None
      end
  end.

(** [json.loads(text)]: one JSON value, surrounded by optional white space.
    A step is spent per value, per member and per element, and each of them
    takes at least one character of its own, so [length + 1] steps suffice. *)
Definition json_loads (text : string) : option pyval :=
  let l := list_ascii_of_string text in
  match parse_value (S (length l)) l with
  | Some (v, r) => match skip_ws r with [] => Some v | _ => None end
  | None => None
  end.

Definition dq : string := String "034"%char EmptyString.

Example json_loads_empty_object : json_loads "{}" = Some (PDict []).
Proof. reflexivity. Qed.

Example json_loads_result :
  json_loads ("{" ++ dq ++ "result" ++ dq ++ ":1}") = Some (PDict [("result", PInt 1)]).
Proof. reflexivity. Qed.

Example json_loads_nested :
  json_loads ("{ " ++ dq ++ "a" ++ dq ++ " : [1, -2.5e3, true, null], " ++ dq ++ "a" ++ dq ++ ": {}}")
  = Some (PDict [("a", PDict [])]).
Proof. reflexivity. Qed.

Example json_loads_bad : json_loads "{x}" = None.
Proof. reflexivity. Qed.

Example json_loads_escapes :
  json_loads ("{" ++ dq ++ "a" ++ dq ++ ":" ++ dq ++ "\u0041\u00e9\ud83d\ude00\n" ++ dq ++
              ", " ++ dq ++ "b" ++ dq ++ ":[NaN, -Infinity]}")
  = Some (PDict [("a", PStr (String "A" (String "195" (String "169"
                   (String "240" (String "159" (String "152" (String "128"
                     (String "010" EmptyString)))))))));
                 ("b", PList [PFloatNaN; PFloatInf true])]).
Proof. reflexivity. Qed.

Example json_loads_bad_escape : json_loads (dq ++ "\u00g0" ++ dq) = None.
Proof. reflexivity. Qed.

(** ** Exceptions and fallible computations *)

(** An exception message: a value passed as is, or a (translated) template
    with the arguments given to [%]: a list for a positional tuple, a dict
    for named [%(key)s] arguments.  [_] (gettext) is the identity here. *)
Inductive msg : Type :=
| MText (v : pyval)
| MFormat (template : string) (args : pyval).

(** Exceptions raised by the external transport. *)
Inductive transport_exn : Type :=
| TTimeoutError (detail : string)   (* mujinplanningclient.TimeoutError *)
| TOtherError (detail : string).    (* any other exception *)

Definition transport_exn_str (e : transport_exn) : string :=
  match e with TTimeoutError d => d | TOtherError d => d end.

Inductive exn : Type :=
| VisionControllerClientError (message : msg) (errortype : pyval)
| VisionControllerTimeoutError (message : msg) (errortype : pyval)
| ValueError                       (* json.loads on malformed text *)
| TypeError
| KeyError (key : pyval)
| AttributeError                   (* a method called on None *)
| ResourceError (detail : string)  (* raised by an owned resource's teardown *)
| Transport (e : transport_exn).

Inductive result (A : Type) : Type :=
| Ok (a : A)
| Raise (e : exn).
Arguments Ok {A} a.
Arguments Raise {A} e.

Definition bind {A B} (m : result A) (k : A -> result B) : result B :=
  match m with Ok a => k a | Raise e => Raise e end.

Notation "x <- m ;; k" := (bind m (fun x => k))
  (at level 61, m at next level, right associativity).

(** ** Python operations on values *)

Fixpoint string_prefix (p s : string) : bool :=
  match p, s with
  | EmptyString, _ => true
  | String a p', String b s' => Ascii.eqb a b && string_prefix p' s'
  | String _ _, EmptyString => false
  end.

Fixpoint string_contains (needle s : string) : bool :=
  string_prefix needle s ||
  match s with EmptyString => false | String _ s' => string_contains needle s' end.

(** [needle in v] for a string [needle]. *)
Definition py_in_str (needle : string) (v : pyval) : result bool :=
  match v with
  | PDict d => Ok (existsb (String.eqb needle) (dict_keys d))
  | PList l => Ok (existsb (pyval_eqb (PStr needle)) l)
  | PStr s => Ok (string_contains needle s)
  | _ => Raise TypeError
  end.

(** [v[k]] for a string [k]. *)
Definition py_getitem_str (v : pyval) (k : string) : result pyval :=
  match v with
  | PDict d => match dict_get d k with Some x => Ok x | None => Raise (KeyError (PStr k)) end
  | _ => Raise TypeError
  end.

(** The characters of a [str] held in UTF-8: an ASCII byte, or a lead byte
    (0xC0 or more) with the continuation bytes (0x80-0xBF) after it.  A
    continuation byte with no lead byte before it, which no encoded [str]
    has, is split off on its own, so that every ASCII byte is always a
    character by itself. *)
Definition is_lead_byte (c : ascii) : bool := (192 <=? nat_of_ascii c)%nat.

Definition is_cont_byte (c : ascii) : bool :=
  (128 <=? nat_of_ascii c)%nat && (nat_of_ascii c <? 192)%nat.

(** The continuation bytes at the front of a list of characters. *)
Fixpoint span_conts (cs : list string) : string * list string :=
  match cs with
  | String b EmptyString :: cs' =>
      if is_cont_byte b then
        let '(t, r) := span_conts cs' in (String b t, r)
      else (EmptyString, cs)
  | _ => (EmptyString, cs)
  end.

Fixpoint str_chars (s : string) : list string :=
  match s with
  | EmptyString => []
  | String c s' =>
      let cs := str_chars s' in
      if is_lead_byte c then
        let '(t, r) := span_conts cs in String c t :: r
      else String c EmptyString :: cs
  end.

(** [len(v)] *)
Definition py_len (v : pyval) : result nat :=
  match v with
  | PStr s => Ok (length (str_chars s))
  | PList l => Ok (length l)
  | PDict d => Ok (length d)
  | _ => Raise TypeError
  end.

(** [v[0]] and [v[-1]], evaluated only when [len(v) > 0].  The dict keys of
    this model are strings, so an integer subscript of a dict is a
    [KeyError]. *)
Definition py_index_first (v : pyval) : result pyval :=
  match v with
  | PStr s => match str_chars s with ch :: _ => Ok (PStr ch) | [] => Raise TypeError end
  | PList (x :: _) => Ok x
  | PDict _ => Raise (KeyError (PInt 0))
  | _ => Raise TypeError
  end.

Definition py_index_last (v : pyval) : result pyval :=
  match v with
  | PStr s => match rev (str_chars s) with ch :: _ => Ok (PStr ch) | [] => Raise TypeError end
  | PList l => match rev l with x :: _ => Ok x | [] => Raise TypeError end
  | PDict _ => Raise (KeyError (PInt (-1)))
  | _ => Raise TypeError
  end.

(** [json.loads(v)] *)
Definition py_json_loads (v : pyval) : result pyval :=
  match v with
  | PStr s => match json_loads s with Some x => Ok x | None => Raise ValueError end
  | _ => Raise TypeError
  end.

(** ** [_ProcessResponse] (lines 117-135) *)

Definition unknown_error_template : string :=
  "Got unknown error from vision manager: %r".

Definition empty_response_template : string :=
  "Vision command %(command)s failed with empty response %(response)r".

(** The nested [_HandleError]: it always raises; this is what it raises. *)
Definition handle_error (response : pyval) : exn :=
  match py_getitem_str response "error" with
  | Raise e => e
  | Ok (PDict err) =>
      VisionControllerClientError (MText (dict_get_default err "desc" (PStr "")))
                                  (dict_get_default err "type" (PStr ""))
  | Ok err =>
      VisionControllerClientError (MFormat unknown_error_template (PList [err]))
                                  (PStr "unknownerror")
  end.

Definition process_response (response command : pyval) (recvjson : bool)
  : result pyval :=
  if recvjson then
    has_error <- py_in_str "error" response ;;
    if has_error then Raise (handle_error response) else Ok response
  else
    n <- py_len response ;;
    looks_json <-
      (if (0 <? n)%nat then
         first <- py_index_first response ;;
         if pyval_eqb first (PStr "{") then
           last <- py_index_last response ;;
           Ok (pyval_eqb last (PStr "}"))
         else Ok false
       else Ok false) ;;
    response <-
      (if looks_json then
         decoded <- py_json_loads response ;;
         has_error <- py_in_str "error" decoded ;;
         if has_error then Raise (handle_error decoded) else Ok decoded
       else Ok response) ;;
    n' <- py_len response ;;
    if (n' =? 0)%nat then
      Raise (VisionControllerClientError
               (MFormat empty_response_template
                        (PDict [("command", command); ("response", response)]))
               (PStr "emptyresponseerror"))
    else Ok response.

Example process_raw_result :
  process_response (PStr ("{" ++ dq ++ "result" ++ dq ++ ":1}")) PNone false
  = Ok (PDict [("result", PInt 1)]).
Proof. reflexivity. Qed.

Example process_raw_plain :
  process_response (PStr "abc") PNone false = Ok (PStr "abc").
Proof. reflexivity. Qed.

Example process_raw_unicode_escape :
  process_response (PStr ("{" ++ dq ++ "a" ++ dq ++ ":" ++ dq ++ "\u0041" ++ dq ++ "}")) PNone false
  = Ok (PDict [("a", PStr "A")]).
Proof. reflexivity. Qed.

Example process_raw_nan :
  process_response (PStr ("{" ++ dq ++ "a" ++ dq ++ ":NaN}")) PNone false
  = Ok (PDict [("a", PFloatNaN)]).
Proof. reflexivity. Qed.

(** [len] counts characters: the two bytes of [é] are one. *)
Example py_len_utf8 :
  py_len (PStr (String "195" (String "169" (String "x" EmptyString)))) = Ok 2%nat.
Proof. reflexivity. Qed.

(** ** The client object

    The transport sockets and the other owned resources are external; what
    the client observes of them is kept in their records: whether the
    command socket waits for a reply, and whether tearing a resource down
    raises.  [destroy_calls] records, latest first, the resources whose
    [Destroy]/[destroy] was called, and [logged] the [log.exception]
    templates. *)

Record zmqclient : Type := mkZmqClient {
  zc_id : nat;
  zc_waiting_reply : bool;
  zc_destroy_fails : bool;
  zc_setdestroy_fails : bool
}.

Record resource : Type := mkResource {
  res_id : nat;
  res_destroy_fails : bool
}.

Record client : Type := mkClient {
  hostname : string;
  commandport : Z;
  callerid : pyval;
  commandsocket : option zmqclient;
  configurationsocket : option zmqclient;
  subscriber : option resource;
  ctxown : option resource;
  ctx : option resource;
  destroy_calls : list nat;
  logged : list string
}.

Definition with_commandsocket (s : option zmqclient) (c : client) : client :=
  {| hostname := hostname c; commandport := commandport c; callerid := callerid c;
     commandsocket := s; configurationsocket := configurationsocket c;
     subscriber := subscriber c; ctxown := ctxown c; ctx := ctx c;
     destroy_calls := destroy_calls c; logged := logged c |}.

Definition with_configurationsocket (s : option zmqclient) (c : client) : client :=
  {| hostname := hostname c; commandport := commandport c; callerid := callerid c;
     commandsocket := commandsocket c; configurationsocket := s;
     subscriber := subscriber c; ctxown := ctxown c; ctx := ctx c;
     destroy_calls := destroy_calls c; logged := logged c |}.

Definition with_subscriber (r : option resource) (c : client) : client :=
  {| hostname := hostname c; commandport := commandport c; callerid := callerid c;
     commandsocket := commandsocket c; configurationsocket := configurationsocket c;
     subscriber := r; ctxown := ctxown c; ctx := ctx c;
     destroy_calls := destroy_calls c; logged := logged c |}.

Definition with_ctxown (r : option resource) (c : client) : client :=
  {| hostname := hostname c; commandport := commandport c; callerid := callerid c;
     commandsocket := commandsocket c; configurationsocket := configurationsocket c;
     subscriber := subscriber c; ctxown := r; ctx := ctx c;
     destroy_calls := destroy_calls c; logged := logged c |}.

Definition with_ctx (r : option resource) (c : client) : client :=
  {| hostname := hostname c; commandport := commandport c; callerid := callerid c;
     commandsocket := commandsocket c; configurationsocket := configurationsocket c;
     subscriber := subscriber c; ctxown := ctxown c; ctx := r;
     destroy_calls := destroy_calls c; logged := logged c |}.

Definition called (id : nat) (c : client) : client :=
  {| hostname := hostname c; commandport := commandport c; callerid := callerid c;
     commandsocket := commandsocket c; configurationsocket := configurationsocket c;
     subscriber := subscriber c; ctxown := ctxown c; ctx := ctx c;
     destroy_calls := id :: destroy_calls c; logged := logged c |}.

Definition log_exception (m : string) (c : client) : client :=
  {| hostname := hostname c; commandport := commandport c; callerid := callerid c;
     commandsocket := commandsocket c; configurationsocket := configurationsocket c;
     subscriber := subscriber c; ctxown := ctxown c; ctx := ctx c;
     destroy_calls := destroy_calls c; logged := m :: logged c |}.

(** [ZmqClient.SendCommand(command, fireandforget, timeout, recvjson,
    checkpreempt, blockwait)]: the reply (or acknowledgement) it returns, or
    what it raises, and the socket afterwards. *)
Definition send_fn : Type :=
  zmqclient -> pyval -> bool -> pyval -> bool -> bool -> bool
  -> result pyval * zmqclient.

(** [ZmqClient.ReceiveCommand(timeout, recvjson)]. *)
Inductive recv_outcome : Type :=
| Received (response : pyval)
| RecvRaised (e : transport_exn).

Definition recv_fn : Type :=
  zmqclient -> pyval -> bool -> recv_outcome * zmqclient.

(** ** [_ExecuteCommand] (lines 108-115)

    The command dict is the caller's and is mutated in place, so the dict
    after the call is part of the outcome. *)

Definition inject_callerid (c : client) (command : dict) : dict :=
  if truthy (callerid c) then dict_set command "callerid" (callerid c)
  else command.

Definition execute_command (send : send_fn) (c : client) (command : dict)
    (fireandforget : bool) (timeout : pyval) (recvjson checkpreempt blockwait : bool)
  : result pyval * client * dict :=
  let command := inject_callerid c command in
  match commandsocket c with
  | None => (Raise AttributeError, c, command)
  | Some s =>
      let '(sent, s') :=
        send s (PDict command) fireandforget timeout recvjson checkpreempt blockwait in
      let c' := with_commandsocket (Some s') c in
      let res :=
        response <- sent ;;
        if blockwait && negb fireandforget
        then process_response response (PDict command) recvjson
        else Ok response in
      (res, c', command)
  end.

(** ** [_SendConfiguration] (lines 453-460); [SendCommand] gets its default
    [recvjson] and [blockwait], both true. *)

Definition send_configuration (send : send_fn) (c : client) (configuration : dict)
    (fireandforget : bool) (timeout : pyval) (checkpreempt recvjson : bool)
  : result pyval * client * dict :=
  let configuration := inject_callerid c configuration in
  match configurationsocket c with
  | None => (Raise AttributeError, c, configuration)
  | Some s =>
      let '(sent, s') :=
        send s (PDict configuration) fireandforget timeout true checkpreempt true in
      let c' := with_configurationsocket (Some s') c in
      let res :=
        response <- sent ;;
        if negb fireandforget
        then process_response response (PDict configuration) recvjson
        else Ok response in
      (res, c', configuration)
  end.

(** ** [_WaitForResponse] (lines 137-163) and [IsWaitingResponse] *)

Definition invalid_wait_template : string :=
  "Waiting on command " ++ dq ++ "%(commandName)s" ++ dq ++ " when wait signal is not on".

Definition timeout_template : string :=
  "Timed out after %.03f seconds to get response message %s from %s:%d: %s".

Definition receive_problem_template : string :=
  "Problem receiving response from the last vision manager async call %s: %s".

(** [command.get('command') or ''] when [command] is a dict, else ''. *)
Definition command_name (command : pyval) : pyval :=
  match command with
  | PDict d =>
      let v := dict_get_default d "command" PNone in
      if truthy v then v else PStr ""
  | _ => PStr ""
  end.

(** Values that [%.03f] accepts. *)
Definition is_number (v : pyval) : bool :=
  match v with
  | PInt _ | PFloat _ _ | PFloatInf _ | PFloatNaN | PBool _ => true
  | _ => false
  end.

Definition is_waiting_response (c : client) : result bool :=
  match commandsocket c with
  | Some s => Ok (zc_waiting_reply s)
  | None => Raise AttributeError
  end.

Definition wait_for_response (recv : recv_fn) (c : client) (recvjson : bool)
    (timeout command : pyval) : result pyval * client :=
  let name := command_name command in
  match commandsocket c with
  | None => (Raise AttributeError, c)
  | Some s =>
      if negb (zc_waiting_reply s) then
        (Raise (VisionControllerClientError
                  (MFormat invalid_wait_template (PDict [("commandName", name)]))
                  (PStr "invalidwait")), c)
      else
        let '(out, s') := recv s timeout recvjson in
        let c' := with_commandsocket (Some s') c in
        match out with
        | Received response => (process_response response command recvjson, c')
        | RecvRaised (TTimeoutError d) =>
            (if is_number timeout then
               Raise (VisionControllerTimeoutError
                        (MFormat timeout_template
                                 (PList [timeout; name; PStr (hostname c);
                                         PInt (commandport c); PStr d]))
                        (PStr "timeout"))
             else Raise TypeError, c')
        | RecvRaised (TOtherError d) =>
            (Raise (VisionControllerClientError
                      (MFormat receive_problem_template (PList [name; PStr d]))
                      (PStr "unknownerror")), c')
        end
  end.

(** ** [SetDestroy] (lines 101-106) and [Destroy] (lines 70-99) *)

Definition set_destroy (c : client) : result unit :=
  _ <- match commandsocket c with
       | Some s => if zc_setdestroy_fails s
                   then Raise (ResourceError "SetDestroy") else Ok tt
       | None => Ok tt
       end ;;
  match configurationsocket c with
  | Some s => if zc_setdestroy_fails s
              then Raise (ResourceError "SetDestroy") else Ok tt
  | None => Ok tt
  end.

(** [try: self._commandsocket.Destroy(); self._commandsocket = None
     except Exception: log.exception(...)] *)
Definition destroy_commandsocket (c : client) : client :=
  match commandsocket c with
  | Some s =>
      let c := called (zc_id s) c in
      if zc_destroy_fails s
      then log_exception "problem destroying commandsocket: %s" c
      else with_commandsocket None c
  | None => c
  end.

Definition destroy_configurationsocket (c : client) : client :=
  match configurationsocket c with
  | Some s =>
      let c := called (zc_id s) c in
      if zc_destroy_fails s
      then log_exception "problem destroying configurationsocket: %s" c
      else with_configurationsocket None c
  | None => c
  end.

(** The subscriber is destroyed outside any [try]. *)
Definition destroy_subscriber (c : client) : result unit * client :=
  match subscriber c with
  | Some r =>
      let c := called (res_id r) c in
      if res_destroy_fails r
      then (Raise (ResourceError "subscriber"), c)
      else (Ok tt, with_subscriber None c)
  | None => (Ok tt, c)
  end.

Definition destroy_ctxown (c : client) : client :=
  match ctxown c with
  | Some r =>
      let c := called (res_id r) c in
      if res_destroy_fails r
      then log_exception "problem destroying ctxown: %s" c
      else with_ctxown None c
  | None => c
  end.

Definition destroy (c : client) : result unit * client :=
  match set_destroy c with
  | Raise e => (Raise e, c)
  | Ok _ =>
      let c := destroy_commandsocket c in
      let c := destroy_configurationsocket c in
      match destroy_subscriber c with
      | (Raise e, c) => (Raise e, c)
      | (Ok _, c) =>
          let c := destroy_ctxown c in
          (Ok tt, with_ctx None c)
      end
  end.

(** ** Payloads built by the high-level operations

    Each builder returns the dict that the operation hands to
    [_ExecuteCommand] or [_SendConfiguration].  Optional arguments are
    [pyval]s whose Python default is given by the [..._defaults] record;
    [None] is [PNone]. *)

(** [if gate: command[k] = v] *)
Definition set_if (gate : bool) (k : string) (v : pyval) (d : dict) : dict :=
  if gate then dict_set d k v else d.

(** [1 if x is True else 0] *)
Definition one_if_true (x : pyval) : pyval :=
  if pyval_eqb x (PBool true) then PInt 1 else PInt 0.

Record sodt_args : Type := mkSodtArgs {
  sodt_taskId : pyval;
  sodt_locationName : pyval;
  sodt_ignoreocclusion : pyval;
  sodt_targetDynamicDetectorParameters : pyval;
  sodt_detectionstarttimestamp : pyval;
  sodt_locale : pyval;
  sodt_maxnumfastdetection : pyval;
  sodt_maxnumdetection : pyval;
  sodt_stopOnNotNeedContainer : pyval;
  sodt_targetupdatename : pyval;
  sodt_numthreads : pyval;
  sodt_cycleIndex : pyval;
  sodt_ignorePlanningState : pyval;
  sodt_ignoreDetectionFileUpdateChange : pyval;
  sodt_sendVerificationPointCloud : pyval;
  sodt_forceClearRegion : pyval;
  sodt_detectionTriggerMode : pyval;
  sodt_useLocationState : pyval
}.

Definition sodt_defaults : sodt_args :=
  {| sodt_taskId := PNone; sodt_locationName := PNone;
     sodt_ignoreocclusion := PNone; sodt_targetDynamicDetectorParameters := PNone;
     sodt_detectionstarttimestamp := PNone; sodt_locale := PNone;
     sodt_maxnumfastdetection := PInt 1; sodt_maxnumdetection := PInt 0;
     sodt_stopOnNotNeedContainer := PNone; sodt_targetupdatename := PStr "";
     sodt_numthreads := PNone; sodt_cycleIndex := PNone;
     sodt_ignorePlanningState := PNone; sodt_ignoreDetectionFileUpdateChange := PNone;
     sodt_sendVerificationPointCloud := PNone; sodt_forceClearRegion := PNone;
     sodt_detectionTriggerMode := PNone; sodt_useLocationState := PNone |}.

(** [StartObjectDetectionTask] (lines 170-241) *)
Definition start_object_detection_task_command (vminitparams : dict) (a : sodt_args)
    (kwargs : dict) : dict :=
  let command := [("command", PStr "StartObjectDetectionTask");
                  ("targetupdatename", sodt_targetupdatename a)] in
  let command := dict_update command vminitparams in
  let command := set_if (is_not_none (sodt_locationName a)) "locationName" (sodt_locationName a) command in
  let command := set_if (truthy (sodt_taskId a)) "taskId" (sodt_taskId a) command in
  let command := set_if (is_not_none (sodt_ignoreocclusion a)) "ignoreocclusion" (one_if_true (sodt_ignoreocclusion a)) command in
  let command := set_if (is_not_none (sodt_targetDynamicDetectorParameters a)) "targetDynamicDetectorParameters" (sodt_targetDynamicDetectorParameters a) command in
  let command := set_if (is_not_none (sodt_detectionstarttimestamp a)) "detectionstarttimestamp" (sodt_detectionstarttimestamp a) command in
  let command := set_if (is_not_none (sodt_locale a)) "locale" (sodt_locale a) command in
  let command := set_if (is_not_none (sodt_sendVerificationPointCloud a)) "sendVerificationPointCloud" (sodt_sendVerificationPointCloud a) command in
  let command := set_if (is_not_none (sodt_stopOnNotNeedContainer a)) "stopOnNotNeedContainer" (sodt_stopOnNotNeedContainer a) command in
  let command := set_if (is_not_none (sodt_maxnumdetection a)) "maxnumdetection" (sodt_maxnumdetection a) command in
  let command := set_if (is_not_none (sodt_maxnumfastdetection a)) "maxnumfastdetection" (sodt_maxnumfastdetection a) command in
  let command := set_if (is_not_none (sodt_numthreads a)) "numthreads" (sodt_numthreads a) command in
  let command := set_if (is_not_none (sodt_cycleIndex a)) "cycleIndex" (sodt_cycleIndex a) command in
  let command := set_if (is_not_none (sodt_ignorePlanningState a)) "ignorePlanningState" (sodt_ignorePlanningState a) command in
  let command := set_if (is_not_none (sodt_ignoreDetectionFileUpdateChange a)) "ignoreDetectionFileUpdateChange" (sodt_ignoreDetectionFileUpdateChange a) command in
  let command := set_if (is_not_none (sodt_forceClearRegion a)) "forceClearRegion" (sodt_forceClearRegion a) command in
  let command := set_if (is_not_none (sodt_detectionTriggerMode a)) "detectionTriggerMode" (sodt_detectionTriggerMode a) command in
  let command := set_if (is_not_none (sodt_useLocationState a)) "useLocationState" (sodt_useLocationState a) command in
  dict_update command kwargs.

Record scdt_args : Type := mkScdtArgs {
  scdt_taskId : pyval;
  scdt_locationName : pyval;
  scdt_ignoreocclusion : pyval;
  scdt_targetDynamicDetectorParameters : pyval;
  scdt_detectionstarttimestamp : pyval;
  scdt_locale : pyval;
  scdt_numthreads : pyval;
  scdt_cycleIndex : pyval;
  scdt_ignorePlanningState : pyval;
  scdt_stopOnNotNeedContainer : pyval;
  scdt_useLocationState : pyval
}.

(** [StartContainerDetectionTask] (lines 243-292) *)
Definition start_container_detection_task_command (vminitparams : dict) (a : scdt_args)
    (kwargs : dict) : dict :=
  let command := [("command", PStr "StartContainerDetectionTask")] in
  let command := dict_update command vminitparams in
  let command := set_if (truthy (scdt_taskId a)) "taskId" (scdt_taskId a) command in
  let command := set_if (is_not_none (scdt_locationName a)) "locationName" (scdt_locationName a) command in
  let command := set_if (is_not_none (scdt_ignoreocclusion a)) "ignoreocclusion" (one_if_true (scdt_ignoreocclusion a)) command in
  let command := set_if (is_not_none (scdt_targetDynamicDetectorParameters a)) "targetDynamicDetectorParameters" (scdt_targetDynamicDetectorParameters a) command in
  let command := set_if (is_not_none (scdt_detectionstarttimestamp a)) "detectionstarttimestamp" (scdt_detectionstarttimestamp a) command in
  let command := set_if (is_not_none (scdt_locale a)) "locale" (scdt_locale a) command in
  let command := set_if (is_not_none (scdt_numthreads a)) "numthreads" (scdt_numthreads a) command in
  let command := set_if (is_not_none (scdt_cycleIndex a)) "cycleIndex" (scdt_cycleIndex a) command in
  let command := set_if (is_not_none (scdt_ignorePlanningState a)) "ignorePlanningState" (scdt_ignorePlanningState a) command in
  let command := set_if (is_not_none (scdt_stopOnNotNeedContainer a)) "stopOnNotNeedContainer" (scdt_stopOnNotNeedContainer a) command in
  let command := set_if (is_not_none (scdt_useLocationState a)) "useLocationState" (scdt_useLocationState a) command in
  dict_update command kwargs.

(** [StopTask] (lines 294-316); defaults [waitForStop=True],
    [removeTask=False], the rest [None]. *)
Definition stop_task_command (taskId taskIds taskType taskTypes cycleIndex
    waitForStop removeTask : pyval) : dict :=
  let command := [("command", PStr "StopTask"); ("waitForStop", waitForStop);
                  ("removeTask", removeTask)] in
  let command := set_if (truthy taskId) "taskId" taskId command in
  let command := set_if (truthy taskIds) "taskIds" taskIds command in
  let command := set_if (truthy taskType) "taskType" taskType command in
  let command := set_if (truthy taskTypes) "taskTypes" taskTypes command in
  set_if (truthy cycleIndex) "cycleIndex" cycleIndex command.

(** [ResumeTask] (lines 318-339) *)
Definition resume_task_command (taskId taskIds taskType taskTypes cycleIndex
    waitForStop : pyval) : dict :=
  let command := [("command", PStr "ResumeTask"); ("waitForStop", waitForStop)] in
  let command := set_if (truthy taskId) "taskId" taskId command in
  let command := set_if (truthy taskIds) "taskIds" taskIds command in
  let command := set_if (truthy taskType) "taskType" taskType command in
  let command := set_if (truthy taskTypes) "taskTypes" taskTypes command in
  set_if (truthy cycleIndex) "cycleIndex" cycleIndex command.

Definition string_chars (s : string) : list pyval := map PStr (str_chars s).

(** [list(x)] *)
Definition py_list (x : pyval) : result pyval :=
  match x with
  | PList l => Ok (PList l)
  | PStr s => Ok (PList (string_chars s))
  | PDict d => Ok (PList (map (fun kv => PStr (fst kv)) d))
  | _ => Raise TypeError
  end.

Record svpct_args : Type := mkSvpctArgs {
  svpct_locationName : pyval;
  svpct_sensorSelectionInfos : pyval;
  svpct_pointsize : pyval;
  svpct_ignoreocclusion : pyval;
  svpct_newerthantimestamp : pyval;
  svpct_request : pyval;
  svpct_filteringsubsample : pyval;
  svpct_filteringvoxelsize : pyval;
  svpct_filteringstddev : pyval;
  svpct_filteringnumnn : pyval
}.

(** [StartVisualizePointCloudTask] (lines 341-382); [request] defaults to
    [True], the rest to [None]. *)
Definition start_visualize_point_cloud_task_command (vminitparams : dict)
    (a : svpct_args) : result dict :=
  let command := [("command", PStr "StartVisualizePointCloudTask")] in
  let command := dict_update command vminitparams in
  let command := set_if (is_not_none (svpct_locationName a)) "locationName" (svpct_locationName a) command in
  command <-
    (if is_not_none (svpct_sensorSelectionInfos a) then
       l <- py_list (svpct_sensorSelectionInfos a) ;;
       Ok (dict_set command "sensorSelectionInfos" l)
     else Ok command) ;;
  let command := set_if (is_not_none (svpct_pointsize a)) "pointsize" (svpct_pointsize a) command in
  let command := set_if (is_not_none (svpct_ignoreocclusion a)) "ignoreocclusion" (one_if_true (svpct_ignoreocclusion a)) command in
  let command := set_if (is_not_none (svpct_newerthantimestamp a)) "newerthantimestamp" (svpct_newerthantimestamp a) command in
  let command := set_if (is_not_none (svpct_request a)) "request" (one_if_true (svpct_request a)) command in
  let command := set_if (is_not_none (svpct_filteringsubsample a)) "filteringsubsample" (svpct_filteringsubsample a) command in
  let command := set_if (is_not_none (svpct_filteringvoxelsize a)) "filteringvoxelsize" (svpct_filteringvoxelsize a) command in
  let command := set_if (is_not_none (svpct_filteringstddev a)) "filteringstddev" (svpct_filteringstddev a) command in
  let command := set_if (is_not_none (svpct_filteringnumnn a)) "filteringnumnn" (svpct_filteringnumnn a) command in
  Ok command.

(** [BackupVisionLog] (lines 384-389) *)
Definition backup_vision_log_command (cycleIndex sensorTimestamps : pyval) : dict :=
  let sensorTimestamps :=
    match sensorTimestamps with PNone => PList [] | x => x end in
  [("command", PStr "BackupDetectionLogs"); ("cycleIndex", cycleIndex);
   ("sensorTimestamps", sensorTimestamps)].

(** [GetLatestDetectedObjects] (lines 391-401) *)
Definition get_latest_detected_objects_command (taskId cycleIndex taskType : pyval) : dict :=
  let command := [("command", PStr "GetLatestDetectedObjects")] in
  let command := set_if (truthy taskId) "taskId" taskId command in
  let command := set_if (truthy cycleIndex) "cycleIndex" cycleIndex command in
  set_if (truthy taskType) "taskType" taskType command.

(** [GetLatestDetectionResultImages] (lines 403-422); [newerthantimestamp]
    defaults to [0], [metadataOnly] to [False], the rest to [None]. *)
Definition get_latest_detection_result_images_command (taskId cycleIndex taskType
    newerthantimestamp sensorSelectionInfo metadataOnly imageTypes limit : pyval) : dict :=
  let command := [("command", PStr "GetLatestDetectionResultImages");
                  ("newerthantimestamp", newerthantimestamp)] in
  let command := set_if (truthy taskId) "taskId" taskId command in
  let command := set_if (truthy cycleIndex) "cycleIndex" cycleIndex command in
  let command := set_if (truthy taskType) "taskType" taskType command in
  let command := set_if (truthy sensorSelectionInfo) "sensorSelectionInfo" sensorSelectionInfo command in
  let command := set_if (truthy metadataOnly) "metadataOnly" metadataOnly command in
  let command := set_if (truthy imageTypes) "imageTypes" imageTypes command in
  set_if (truthy limit) "limit" limit command.

(** [GetDetectionHistory] (lines 427-439) *)
Definition get_detection_history_command (timestamp : pyval) : dict :=
  [("command", PStr "GetDetectionHistory"); ("timestamp", timestamp)].

(** [GetVisionStatistics] (lines 441-451) *)
Definition get_vision_statistics_command (taskId cycleIndex taskType : pyval) : dict :=
  let command := [("command", PStr "GetVisionStatistics")] in
  let command := set_if (truthy taskId) "taskId" taskId command in
  let command := set_if (truthy cycleIndex) "cycleIndex" cycleIndex command in
  set_if (truthy taskType) "taskType" taskType command.

(** Configuration channel: [Ping], [SetLogLevel], [Cancel], [Quit],
    [GetTaskStateService], [GetPublishedStateService] (lines 462-499). *)
Definition ping_command : dict := [("command", PStr "Ping")].

Definition set_log_level_command (componentLevels : pyval) : dict :=
  [("command", PStr "SetLogLevel"); ("componentLevels", componentLevels)].

Definition cancel_command : dict := [("command", PStr "Cancel")].

Definition quit_command : dict := [("command", PStr "Quit")].

Definition get_task_state_service_command (taskId cycleIndex taskType : pyval) : dict :=
  let command := [("command", PStr "GetTaskState")] in
  let command := set_if (truthy taskId) "taskId" taskId command in
  let command := set_if (truthy cycleIndex) "cycleIndex" cycleIndex command in
  set_if (truthy taskType) "taskType" taskType command.

Definition get_published_state_service_command : dict :=
  [("command", PStr "GetPublishedState")].

(** [StopTask(...)] itself: the payload sent through [_ExecuteCommand]. *)
Definition StopTask (send : send_fn) (c : client) (taskId taskIds taskType taskTypes
    cycleIndex waitForStop removeTask : pyval) (fireandforget : bool) (timeout : pyval)
  : result pyval * client * dict :=
  execute_command send c
    (stop_task_command taskId taskIds taskType taskTypes cycleIndex waitForStop removeTask)
    fireandforget timeout true true true.

(** [Ping(timeout)] through [_SendConfiguration]. *)
Definition Ping (send : send_fn) (c : client) (timeout : pyval)
  : result pyval * client * dict :=
  send_configuration send c ping_command false timeout true true.

(** ** The high-level operations (lines 170-499)

    Each operation builds its payload and hands it to [_ExecuteCommand] or
    [_SendConfiguration] with the keyword arguments it passes; the payload
    is local to the operation, so only the result and the client remain. *)

Definition StartObjectDetectionTask (send : send_fn) (c : client) (vminitparams : dict)
    (a : sodt_args) (kwargs : dict) (timeout : pyval) : result pyval * client :=
  fst (execute_command send c (start_object_detection_task_command vminitparams a kwargs)
         false timeout true true true).

Definition StartContainerDetectionTask (send : send_fn) (c : client) (vminitparams : dict)
    (a : scdt_args) (kwargs : dict) (timeout : pyval) : result pyval * client :=
  fst (execute_command send c (start_container_detection_task_command vminitparams a kwargs)
         false timeout true true true).

Definition ResumeTask (send : send_fn) (c : client) (taskId taskIds taskType taskTypes
    cycleIndex waitForStop : pyval) (fireandforget : bool) (timeout : pyval)
  : result pyval * client :=
  fst (execute_command send c
         (resume_task_command taskId taskIds taskType taskTypes cycleIndex waitForStop)
         fireandforget timeout true true true).

(** [list(sensorSelectionInfos)] runs before anything is sent. *)
Definition StartVisualizePointCloudTask (send : send_fn) (c : client) (vminitparams : dict)
    (a : svpct_args) (timeout : pyval) : result pyval * client :=
  match start_visualize_point_cloud_task_command vminitparams a with
  | Raise e => (Raise e, c)
  | Ok command => fst (execute_command send c command false timeout true true true)
  end.

Definition BackupVisionLog (send : send_fn) (c : client) (cycleIndex sensorTimestamps : pyval)
    (fireandforget : bool) (timeout : pyval) : result pyval * client :=
  fst (execute_command send c (backup_vision_log_command cycleIndex sensorTimestamps)
         fireandforget timeout true true true).

Definition GetLatestDetectedObjects (send : send_fn) (c : client)
    (taskId cycleIndex taskType timeout : pyval) : result pyval * client :=
  fst (execute_command send c (get_latest_detected_objects_command taskId cycleIndex taskType)
         false timeout true true true).

Definition GetLatestDetectionResultImages (send : send_fn) (c : client)
    (taskId cycleIndex taskType newerthantimestamp sensorSelectionInfo metadataOnly
     imageTypes limit : pyval) (blockwait : bool) (timeout : pyval)
  : result pyval * client :=
  fst (execute_command send c
         (get_latest_detection_result_images_command taskId cycleIndex taskType
            newerthantimestamp sensorSelectionInfo metadataOnly imageTypes limit)
         false timeout false true blockwait).

(** [_WaitForResponse(recvjson=False, timeout=timeout)]: no command. *)
Definition WaitForGetLatestDetectionResultImages (recv : recv_fn) (c : client)
    (timeout : pyval) : result pyval * client :=
  wait_for_response recv c false timeout PNone.

Definition GetDetectionHistory (send : send_fn) (c : client) (timestamp timeout : pyval)
  : result pyval * client :=
  fst (execute_command send c (get_detection_history_command timestamp)
         false timeout false true true).

Definition GetVisionStatistics (send : send_fn) (c : client)
    (taskId cycleIndex taskType timeout : pyval) : result pyval * client :=
  fst (execute_command send c (get_vision_statistics_command taskId cycleIndex taskType)
         false timeout true true true).

Definition SetLogLevel (send : send_fn) (c : client) (componentLevels timeout : pyval)
  : result pyval * client :=
  fst (send_configuration send c (set_log_level_command componentLevels)
         false timeout true true).

(** [Cancel] and [Quit] also call [log.info], which has no effect here. *)
Definition Cancel (send : send_fn) (c : client) (timeout : pyval) : result pyval * client :=
  fst (send_configuration send c cancel_command false timeout true true).

Definition Quit (send : send_fn) (c : client) (timeout : pyval) : result pyval * client :=
  fst (send_configuration send c quit_command false timeout true true).

Definition GetTaskStateService (send : send_fn) (c : client)
    (taskId cycleIndex taskType timeout : pyval) : result pyval * client :=
  fst (send_configuration send c (get_task_state_service_command taskId cycleIndex taskType)
         false timeout true true).

Definition GetPublishedStateService (send : send_fn) (c : client) (timeout : pyval)
  : result pyval * client :=
  fst (send_configuration send c get_published_state_service_command false timeout true true).

(** ** [__init__] (lines 39-65)

    [zmq.Context()] and [zmqclient.ZmqClient(...)] are external: the context
    the constructor would create is an argument, and the socket constructor
    is a function of the host, the port and the context it is given (its
    other arguments, [limit], [checkpreemptfn] and [reusetimeout], do not
    reach this file's logic).  Setting [linger] on the new context is not
    observed here. *)
Definition socket_ctor : Type := string -> Z -> option resource -> zmqclient.

Definition init (new_context : resource) (new_socket : socket_ctor)
    (hostname : string) (commandport : Z) (ctx : option resource) (callerid : pyval)
  : client :=
  let '(own, shared) :=
    match ctx with
    | None => (Some new_context, Some new_context)
    | Some x => (None, Some x)
    end in
  {| hostname := hostname; commandport := commandport; callerid := callerid;
     commandsocket := Some (new_socket hostname commandport shared);
     configurationsocket := Some (new_socket hostname (commandport + 2)%Z shared);
     subscriber := None; ctxown := own; ctx := shared;
     destroy_calls := []; logged := [] |}.

(** [self.statusport], which [__init__] sets to [commandport + 3]; no
    method of the class reassigns it or [commandport]. *)
Definition statusport (c : client) : Z := (commandport c + 3)%Z.

(** ** [GetPublishedState] (lines 502-508)

    [zmqsubscriber.ZmqSubscriber(endpoint, ctx=...)] and its [SpinOnce] are
    external: the constructor is a function of the endpoint and the context,
    [SpinOnce] returns the raw state (or raises) and the subscriber after
    the call. *)
Definition subscriber_ctor : Type := msg -> option resource -> resource.

Definition spin_fn : Type := resource -> pyval -> result pyval * resource.

Definition status_endpoint_template : string := "tcp://%s:%d".

Definition status_endpoint (c : client) : msg :=
  MFormat status_endpoint_template (PList [PStr (hostname c); PInt (statusport c)]).

Definition get_published_state (new_subscriber : subscriber_ctor) (spin : spin_fn)
    (c : client) (timeout : pyval) : result pyval * client :=
  let sub :=
    match subscriber c with
    | Some r => r
    | None => new_subscriber (status_endpoint c) (ctx c)
    end in
  let '(raw, sub') := spin sub timeout in
  let c := with_subscriber (Some sub') c in
  (rawState <- raw ;;
   if is_not_none rawState then py_json_loads rawState else Ok PNone, c).

(** * Facts about the embedding *)

Lemma dict_get_in_keys (d : dict) (k : string) (v : pyval) :
  dict_get d k = Some v -> existsb (String.eqb k) (dict_keys d) = true.
Proof.
  induction d as [|[k' v'] d IH]; simpl; [discriminate|].
  destruct (String.eqb k k'); simpl; auto.
Qed.

Lemma dict_get_none_keys (d : dict) (k : string) :
  dict_get d k = None -> existsb (String.eqb k) (dict_keys d) = false.
Proof.
  induction d as [|[k' v'] d IH]; simpl; [reflexivity|].
  destruct (String.eqb k k'); simpl; [discriminate|auto].
Qed.

(** What [_HandleError] raises for a dict whose ['error'] entry is [err]. *)
Lemma handle_error_dict (d : dict) (err : pyval) :
  dict_get d "error" = Some err ->
  handle_error (PDict d) =
  match err with
  | PDict e => VisionControllerClientError (MText (dict_get_default e "desc" (PStr "")))
                                           (dict_get_default e "type" (PStr ""))
  | _ => VisionControllerClientError (MFormat unknown_error_template (PList [err]))
                                     (PStr "unknownerror")
  end.
Proof. intros H. unfold handle_error; simpl. rewrite H. destruct err; reflexivity. Qed.

Lemma process_response_error_key (d : dict) (err command : pyval) :
  dict_get d "error" = Some err ->
  process_response (PDict d) command true = Raise (handle_error (PDict d)).
Proof.
  intros H. unfold process_response, py_in_str, bind. rewrite (dict_get_in_keys _ _ _ H).
  reflexivity.
Qed.

(** ** Claim C1 *)

(** C1: a pre-decoded response mapping with an ['error'] key makes response
    validation fail: with the ['desc'] and ['type'] fields (default '') of
    the error when it is a mapping, with errortype 'unknownerror' and the
    raw error value as the message argument otherwise.  The same failure
    comes out of the command path ([_ExecuteCommand], blocking) and of the
    configuration path ([_SendConfiguration]). *)
Theorem structured_error_response_fails (d : dict) (err command : pyval)
    (send : send_fn) (c : client) (cmd : dict) (timeout : pyval) (checkpreempt : bool)
    (Herr : dict_get d "error" = Some err) :
  let expected :=
    match err with
    | PDict e => VisionControllerClientError (MText (dict_get_default e "desc" (PStr "")))
                                             (dict_get_default e "type" (PStr ""))
    | _ => VisionControllerClientError (MFormat unknown_error_template (PList [err]))
                                       (PStr "unknownerror")
    end in
  process_response (PDict d) command true = Raise expected /\
  (forall s s',
     commandsocket c = Some s ->
     send s (PDict (inject_callerid c cmd)) false timeout true checkpreempt true
       = (Ok (PDict d), s') ->
     fst (fst (execute_command send c cmd false timeout true checkpreempt true))
       = Raise expected) /\
  (forall s s',
     configurationsocket c = Some s ->
     send s (PDict (inject_callerid c cmd)) false timeout true checkpreempt true
       = (Ok (PDict d), s') ->
     fst (fst (send_configuration send c cmd false timeout checkpreempt true))
       = Raise expected).
Proof.
  intros expected.
  assert (Hp : forall cm, process_response (PDict d) cm true = Raise expected).
  { intros cm. rewrite (process_response_error_key d err cm Herr).
    rewrite (handle_error_dict _ _ Herr). reflexivity. }
  split; [apply Hp|split].
  - intros s s' Hs Hsend. unfold execute_command. rewrite Hs, Hsend. cbn -[process_response]. apply Hp.
  - intros s s' Hs Hsend. unfold send_configuration. rewrite Hs, Hsend. cbn -[process_response]. apply Hp.
Qed.

(** ** Claim C2 *)

(** C2: [_ExecuteCommand] validates the response exactly when it blocks and
    is not fire-and-forget: with [fireandforget] or without [blockwait] the
    result is what [SendCommand] returned, untouched; otherwise it is that
    reply passed through [_ProcessResponse]. *)
Theorem execute_command_validates_iff_blocking (send : send_fn) (c : client)
    (s s' : zmqclient) (cmd : dict) (fireandforget : bool) (timeout : pyval)
    (recvjson checkpreempt blockwait : bool) (sent : result pyval)
    (Hs : commandsocket c = Some s)
    (Hsend : send s (PDict (inject_callerid c cmd)) fireandforget timeout recvjson
               checkpreempt blockwait = (sent, s')) :
  let res := fst (fst (execute_command send c cmd fireandforget timeout recvjson
                                      checkpreempt blockwait)) in
  (fireandforget = true -> res = sent) /\
  (fireandforget = false -> blockwait = false -> res = sent) /\
  (fireandforget = false -> blockwait = true ->
   res = (response <- sent ;;
          process_response response (PDict (inject_callerid c cmd)) recvjson)).
Proof.
  intros res. unfold res, execute_command. rewrite Hs, Hsend. simpl.
  split; [|split].
  - intros ->. rewrite andb_false_r. destruct sent; reflexivity.
  - intros -> ->. destruct sent; reflexivity.
  - intros -> ->. reflexivity.
Qed.

(** ** Claim C3 *)

(** C3: when [IsWaitingResponse()] is false, [_WaitForResponse] fails with
    errortype 'invalidwait' for every timeout, leaving the client as it was
    whatever the receive would have done: no receive is attempted. *)
Theorem wait_without_pending_call_is_invalid (recv : recv_fn) (c : client)
    (recvjson : bool) (timeout command : pyval)
    (Hidle : is_waiting_response c = Ok false) :
  wait_for_response recv c recvjson timeout command =
  (Raise (VisionControllerClientError
            (MFormat invalid_wait_template (PDict [("commandName", command_name command)]))
            (PStr "invalidwait")), c).
Proof.
  unfold is_waiting_response in Hidle. unfold wait_for_response.
  destruct (commandsocket c) as [s|]; [|discriminate].
  injection Hidle as ->. reflexivity.
Qed.

(** ** Claim C4 *)

(** C4: a transport [TimeoutError] during the receive becomes a
    [VisionControllerTimeoutError] with errortype 'timeout', whose message
    carries the timeout, the command name ('' when unknown), the host and
    the command port.  [%.03f] needs a number: a transport timeout only
    happens under a numeric timeout. *)
Theorem wait_transport_timeout (recv : recv_fn) (c : client) (s s' : zmqclient)
    (recvjson : bool) (timeout command : pyval) (detail : string)
    (Hs : commandsocket c = Some s) (Hw : zc_waiting_reply s = true)
    (Hrecv : recv s timeout recvjson = (RecvRaised (TTimeoutError detail), s'))
    (Hnum : is_number timeout = true) :
  fst (wait_for_response recv c recvjson timeout command) =
  Raise (VisionControllerTimeoutError
           (MFormat timeout_template
                    (PList [timeout; command_name command; PStr (hostname c);
                            PInt (commandport c); PStr detail]))
           (PStr "timeout")).
Proof.
  unfold wait_for_response. rewrite Hs, Hw, Hrecv. simpl. rewrite Hnum. reflexivity.
Qed.

(** ** Claim C5 *)

(** A client on the default port whose command socket waits for a reply. *)
Definition waiting_socket : zmqclient :=
  {| zc_id := 1; zc_waiting_reply := true; zc_destroy_fails := false;
     zc_setdestroy_fails := false |}.

Definition sample_client : client :=
  {| hostname := "127.0.0.1"; commandport := 7004; callerid := PNone;
     commandsocket := Some waiting_socket; configurationsocket := Some waiting_socket;
     subscriber := None; ctxown := None; ctx := None;
     destroy_calls := []; logged := [] |}.

(** A receive that fails with a non-timeout error. *)
Definition recv_connection_reset : recv_fn :=
  fun s _ _ => (RecvRaised (TOtherError "connection reset"), s).

(** C5 (counterexample): a non-timeout transport failure is reported with
    the same exception class and the same errortype, 'unknownerror', as an
    unrecognised ['error'] value in a response: no kind distinct from
    UnknownError exists. *)
Lemma transport_failure_same_kind_as_unknown_error :
  exists m1 m2,
    fst (wait_for_response recv_connection_reset sample_client true (PFloat 2 0)
                           (PDict ping_command))
    = Raise (VisionControllerClientError m1 (PStr "unknownerror")) /\
    process_response (PDict [("error", PStr "oops")]) PNone true
    = Raise (VisionControllerClientError m2 (PStr "unknownerror")).
Proof. eexists; eexists; split; reflexivity. Qed.

(** C5 (amended): a non-timeout failure of the receive becomes a
    [VisionControllerClientError] with errortype 'unknownerror', the kind
    the unknown-error path of response validation also uses, whose message
    carries the command name and the text of the underlying exception. *)
Theorem wait_transport_failure_is_unknownerror (recv : recv_fn) (c : client)
    (s s' : zmqclient) (recvjson : bool) (timeout command : pyval) (detail : string)
    (Hs : commandsocket c = Some s) (Hw : zc_waiting_reply s = true)
    (Hrecv : recv s timeout recvjson = (RecvRaised (TOtherError detail), s')) :
  fst (wait_for_response recv c recvjson timeout command) =
  Raise (VisionControllerClientError
           (MFormat receive_problem_template (PList [command_name command; PStr detail]))
           (PStr "unknownerror")).
Proof.
  unfold wait_for_response. rewrite Hs, Hw, Hrecv. reflexivity.
Qed.

(** ** Claims C6 and C9: raw responses *)

(** The test of line 129 on a text: non-empty, first character [{], last
    character [}]. *)
Definition brace_delimited (r : string) : bool :=
  match str_chars r with
  | first :: _ =>
      String.eqb first "{" &&
      match rev (str_chars r) with last :: _ => String.eqb last "}" | [] => false end
  | [] => false
  end.

Lemma str_chars_cons (c : ascii) (r : string) :
  exists t rest, str_chars (String c r) = String c t :: rest.
Proof.
  cbn [str_chars]. destruct (is_lead_byte c).
  - destruct (span_conts (str_chars r)) as [t rest]. eauto.
  - eauto.
Qed.

Lemma brace_delimited_first (r : string) :
  brace_delimited r = true -> exists r', r = String "{"%char r'.
Proof.
  unfold brace_delimited. destruct r as [|c r]; [discriminate|].
  destruct (str_chars_cons c r) as [t [rest E]]. rewrite E.
  intros H. apply andb_prop in H as [H _]. apply String.eqb_eq in H.
  injection H as -> _. eauto.
Qed.

Lemma parse_members_dict (f : nat) (acc : dict) (s : list ascii) (v : pyval)
    (r : list ascii) :
  parse_members f acc s = Some (v, r) -> exists d, v = PDict d.
Proof.
  revert acc s. induction f as [|f IH]; intros acc s H; simpl in H; [discriminate|].
  repeat match type of H with
         | context [match ?x with _ => _ end] => destruct x
         end;
  try discriminate;
  try (injection H as <- <-; eexists; reflexivity);
  eauto.
Qed.

Lemma parse_value_brace (f : nat) (l : list ascii) (v : pyval) (r : list ascii) :
  parse_value (S f) ("{"%char :: l) = Some (v, r) -> exists d, v = PDict d.
Proof.
  cbn [parse_value skip_ws is_ws]. intros H.
  repeat match type of H with
         | context [match ?x with _ => _ end] => destruct x
         end;
  try (injection H as <- <-; eexists; reflexivity);
  eapply parse_members_dict; exact H.
Qed.

Lemma json_loads_brace (r : string) (v : pyval) :
  json_loads (String "{"%char r) = Some v -> exists d, v = PDict d.
Proof.
  unfold json_loads. cbn [list_ascii_of_string length].
  destruct (parse_value _ _) as [[v' r']|] eqn:P; [|discriminate].
  destruct (skip_ws r'); [|discriminate]. intros H; injection H as <-.
  exact (parse_value_brace _ _ _ _ P).
Qed.

(** The three outcomes of the brace test on a non-empty text. *)
Lemma process_raw_nonempty (c : ascii) (r : string) (command : pyval) :
  process_response (PStr (String c r)) command false =
  if brace_delimited (String c r) then
    response <-
      (decoded <- py_json_loads (PStr (String c r)) ;;
       has_error <- py_in_str "error" decoded ;;
       if has_error then Raise (handle_error decoded) else Ok decoded) ;;
    n' <- py_len response ;;
    if (n' =? 0)%nat then
      Raise (VisionControllerClientError
               (MFormat empty_response_template
                        (PDict [("command", command); ("response", response)]))
               (PStr "emptyresponseerror"))
    else Ok response
  else Ok (PStr (String c r)).
Proof.
  unfold process_response, brace_delimited, py_index_first, py_index_last.
  destruct (str_chars_cons c r) as [t [rest E]]. cbn [bind py_len]. rewrite !E.
  cbn [bind length Nat.ltb Nat.leb pyval_eqb].
  destruct (String.eqb (String c t) "{"); cbn [andb bind];
    [|cbn [py_len bind]; rewrite E; reflexivity].
  cbn [rev]. destruct (rev rest ++ [String c t])%list as [|l ls] eqn:Er.
  - exfalso. exact (app_cons_not_nil _ _ _ (eq_sym Er)).
  - cbn [bind pyval_eqb]. destruct (String.eqb l "}"); [reflexivity|].
    cbn [py_len bind]. rewrite E. reflexivity.
Qed.

(** C6 (counterexample): the raw text [{}] is brace-delimited and decodes to
    a mapping without an ['error'] key, yet validation does not return that
    mapping: it fails. *)
Lemma raw_empty_object_not_returned :
  brace_delimited "{}" = true /\
  json_loads "{}" = Some (PDict []) /\
  dict_get [] "error" = None /\
  process_response (PStr "{}") PNone false <> Ok (PDict []).
Proof. split; [reflexivity|split; [reflexivity|split; [reflexivity|discriminate]]]. Qed.

(** C6 (amended): for a raw text response: the empty text fails with
    errortype 'emptyresponseerror' naming the command; a non-empty text
    that does not start with [{] and end with [}] is returned unchanged; a
    brace-delimited text is decoded ([json.loads] failing with ValueError
    on malformed text) into a mapping, which fails the structured error
    check when it has an ['error'] key, fails with 'emptyresponseerror'
    when it is empty, and is returned otherwise. *)
Theorem raw_response_validation (command : pyval) :
  process_response (PStr "") command false =
  Raise (VisionControllerClientError
           (MFormat empty_response_template
                    (PDict [("command", command); ("response", PStr "")]))
           (PStr "emptyresponseerror")) /\
  (forall r, r <> "" -> brace_delimited r = false ->
     process_response (PStr r) command false = Ok (PStr r)) /\
  (forall r, brace_delimited r = true -> json_loads r = None ->
     process_response (PStr r) command false = Raise ValueError) /\
  (forall r v, brace_delimited r = true -> json_loads r = Some v ->
     exists d, v = PDict d /\
       process_response (PStr r) command false =
       match dict_get d "error" with
       | Some _ => Raise (handle_error (PDict d))
       | None =>
           match d with
           | [] => Raise (VisionControllerClientError
                            (MFormat empty_response_template
                                     (PDict [("command", command); ("response", PDict [])]))
                            (PStr "emptyresponseerror"))
           | _ => Ok (PDict d)
           end
       end).
Proof.
  split; [reflexivity|split; [|split]].
  - intros [|c r] Hne Hb; [contradiction|].
    rewrite process_raw_nonempty, Hb. reflexivity.
  - intros [|c r] Hb Hj; [discriminate|].
    rewrite process_raw_nonempty, Hb. unfold py_json_loads. rewrite Hj. reflexivity.
  - intros [|c r] v Hb Hj; [discriminate|].
    destruct (brace_delimited_first _ Hb) as [r' Hc]. injection Hc as -> ->.
    destruct (json_loads_brace _ _ Hj) as [d ->]. exists d. split; [reflexivity|].
    rewrite process_raw_nonempty, Hb. unfold py_json_loads. rewrite Hj.
    cbn [bind py_in_str].
    destruct (dict_get d "error") as [err|] eqn:He.
    + rewrite (dict_get_in_keys _ _ _ He). reflexivity.
    + rewrite (dict_get_none_keys _ _ He). destruct d; reflexivity.
Qed.

(** A brace-delimited raw reply, as in the spec: [{"result":1}]. *)
Definition raw_result_reply : string := "{" ++ dq ++ "result" ++ dq ++ ":1}".

Lemma raw_response_validation_witness :
  brace_delimited raw_result_reply = true /\
  json_loads raw_result_reply = Some (PDict [("result", PInt 1)]) /\
  process_response (PStr raw_result_reply) PNone false = Ok (PDict [("result", PInt 1)]) /\
  process_response (PStr "abc") PNone false = Ok (PStr "abc").
Proof.
  destruct (raw_response_validation PNone) as [_ [Hplain [_ Hdec]]].
  assert (Hb : brace_delimited raw_result_reply = true) by reflexivity.
  assert (Hj : json_loads raw_result_reply = Some (PDict [("result", PInt 1)]))
    by reflexivity.
  split; [exact Hb|split; [exact Hj|split]].
  - destruct (Hdec _ _ Hb Hj) as [d [Hd Hp]]. rewrite Hp.
    injection Hd as <-. reflexivity.
  - apply Hplain; [discriminate|reflexivity].
Defined.

(** C9: the raw text [{}] decodes to the empty mapping, which has no
    ['error'] key, and validation then fails with errortype
    'emptyresponseerror': the emptiness test is applied to the decoded
    mapping, not to the two-character text. *)
Theorem raw_empty_object_is_empty_response (command : pyval) :
  json_loads "{}" = Some (PDict []) /\
  py_in_str "error" (PDict []) = Ok false /\
  process_response (PStr "{}") command false =
  Raise (VisionControllerClientError
           (MFormat empty_response_template
                    (PDict [("command", command); ("response", PDict [])]))
           (PStr "emptyresponseerror")).
Proof. split; [reflexivity|split; reflexivity]. Qed.

(** ** Witnesses of C1-C5 *)

Definition structured_error_reply : dict :=
  [("error", PDict [("desc", PStr "X"); ("type", PStr "Y")])].

(** A transport whose [SendCommand] answers every command with [reply]. *)
Definition send_replying (reply : pyval) : send_fn :=
  fun s _ _ _ _ _ _ => (Ok reply, s).

Lemma structured_error_response_fails_witness :
  fst (fst (execute_command (send_replying (PDict structured_error_reply)) sample_client
                            ping_command false (PFloat 2 0) true true true))
  = Raise (VisionControllerClientError (MText (PStr "X")) (PStr "Y")) /\
  fst (fst (send_configuration (send_replying (PDict structured_error_reply)) sample_client
                               ping_command false (PFloat 2 0) true true))
  = Raise (VisionControllerClientError (MText (PStr "X")) (PStr "Y")).
Proof.
  destruct (structured_error_response_fails structured_error_reply
              (PDict [("desc", PStr "X"); ("type", PStr "Y")]) PNone
              (send_replying (PDict structured_error_reply)) sample_client ping_command
              (PFloat 2 0) true eq_refl) as [_ [Hcmd Hcfg]].
  split.
  - exact (Hcmd waiting_socket waiting_socket eq_refl eq_refl).
  - exact (Hcfg waiting_socket waiting_socket eq_refl eq_refl).
Defined.

Lemma execute_command_validates_iff_blocking_witness :
  fst (fst (execute_command (send_replying (PStr "ack")) sample_client ping_command
                            false (PFloat 2 0) true true false)) = Ok (PStr "ack") /\
  fst (fst (execute_command (send_replying (PStr "")) sample_client ping_command
                            false (PFloat 2 0) false true true))
  = Raise (VisionControllerClientError
             (MFormat empty_response_template
                      (PDict [("command", PDict ping_command); ("response", PStr "")]))
             (PStr "emptyresponseerror")).
Proof.
  split.
  - destruct (execute_command_validates_iff_blocking (send_replying (PStr "ack"))
                sample_client waiting_socket waiting_socket ping_command false (PFloat 2 0)
                true true false (Ok (PStr "ack")) eq_refl eq_refl) as [_ [H _]].
    exact (H eq_refl eq_refl).
  - destruct (execute_command_validates_iff_blocking (send_replying (PStr ""))
                sample_client waiting_socket waiting_socket ping_command false (PFloat 2 0)
                false true true (Ok (PStr "")) eq_refl eq_refl) as [_ [_ H]].
    rewrite (H eq_refl eq_refl). reflexivity.
Defined.

Definition idle_client : client :=
  with_commandsocket
    (Some {| zc_id := 1; zc_waiting_reply := false; zc_destroy_fails := false;
             zc_setdestroy_fails := false |}) sample_client.

(** A receive that would answer, were it called. *)
Definition recv_replying (reply : pyval) : recv_fn := fun s _ _ => (Received reply, s).

Lemma wait_without_pending_call_is_invalid_witness :
  is_waiting_response idle_client = Ok false /\
  wait_for_response (recv_replying (PStr "late")) idle_client false PNone PNone =
  (Raise (VisionControllerClientError
            (MFormat invalid_wait_template (PDict [("commandName", PStr "")]))
            (PStr "invalidwait")), idle_client).
Proof.
  split; [reflexivity|].
  exact (wait_without_pending_call_is_invalid (recv_replying (PStr "late")) idle_client
           false PNone PNone eq_refl).
Defined.

Definition recv_timing_out : recv_fn :=
  fun s _ _ => (RecvRaised (TTimeoutError "no reply"), s).

Lemma wait_transport_timeout_witness :
  fst (wait_for_response recv_timing_out sample_client true (PFloat 20 (-1))
                         (PDict ping_command)) =
  Raise (VisionControllerTimeoutError
           (MFormat timeout_template
                    (PList [PFloat 20 (-1); PStr "Ping"; PStr "127.0.0.1"; PInt 7004;
                            PStr "no reply"]))
           (PStr "timeout")).
Proof.
  exact (wait_transport_timeout recv_timing_out sample_client waiting_socket waiting_socket
           true (PFloat 20 (-1)) (PDict ping_command) "no reply"
           eq_refl eq_refl eq_refl eq_refl).
Defined.

Lemma wait_transport_failure_is_unknownerror_witness :
  fst (wait_for_response recv_connection_reset sample_client true (PFloat 2 0)
                         (PDict ping_command)) =
  Raise (VisionControllerClientError
           (MFormat receive_problem_template (PList [PStr "Ping"; PStr "connection reset"]))
           (PStr "unknownerror")).
Proof.
  exact (wait_transport_failure_is_unknownerror recv_connection_reset sample_client
           waiting_socket waiting_socket true (PFloat 2 0) (PDict ping_command)
           "connection reset" eq_refl eq_refl eq_refl).
Defined.

(** ** Claim C8: teardown *)

(** The reference a teardown leaves behind: cleared on success, kept when
    the resource's [Destroy] raised. *)
Definition survivor_zc (o : option zmqclient) : option zmqclient :=
  match o with Some s => if zc_destroy_fails s then Some s else None | None => None end.

Definition survivor_res (o : option resource) : option resource :=
  match o with Some r => if res_destroy_fails r then Some r else None | None => None end.

Definition ids_zc (o : option zmqclient) : list nat :=
  match o with Some s => [zc_id s] | None => [] end.

Definition ids_res (o : option resource) : list nat :=
  match o with Some r => [res_id r] | None => [] end.

Definition distinct_ids_socket (i : nat) (fails : bool) : zmqclient :=
  {| zc_id := i; zc_waiting_reply := false; zc_destroy_fails := fails;
     zc_setdestroy_fails := false |}.

(** A client owning its context, whose command socket fails to close. *)
Definition client_failing_commandsocket : client :=
  {| hostname := "127.0.0.1"; commandport := 7004; callerid := PNone;
     commandsocket := Some (distinct_ids_socket 1 true);
     configurationsocket := Some (distinct_ids_socket 2 false);
     subscriber := Some {| res_id := 3; res_destroy_fails := false |};
     ctxown := Some {| res_id := 4; res_destroy_fails := false |};
     ctx := Some {| res_id := 4; res_destroy_fails := false |};
     destroy_calls := []; logged := [] |}.

(** C8 (counterexample): when the command socket's [Destroy] raises, two
    successive teardowns both return normally, but the command socket
    reference is still set afterwards. *)
Lemma destroy_twice_keeps_failed_socket :
  let '(r1, c1) := destroy client_failing_commandsocket in
  let '(r2, c2) := destroy c1 in
  r1 = Ok tt /\ r2 = Ok tt /\ commandsocket c2 = Some (distinct_ids_socket 1 true).
Proof. vm_compute. split; [reflexivity|split; reflexivity]. Qed.

(** A client whose subscriber fails to close. *)
Definition client_failing_subscriber : client :=
  {| hostname := "127.0.0.1"; commandport := 7004; callerid := PNone;
     commandsocket := Some (distinct_ids_socket 1 false);
     configurationsocket := Some (distinct_ids_socket 2 false);
     subscriber := Some {| res_id := 3; res_destroy_fails := true |};
     ctxown := Some {| res_id := 4; res_destroy_fails := false |};
     ctx := Some {| res_id := 4; res_destroy_fails := false |};
     destroy_calls := []; logged := [] |}.

(** The subscriber's [Destroy] is not guarded: its failure propagates out of
    [Destroy], and the owned context is never destroyed. *)
Lemma destroy_subscriber_failure_propagates :
  let '(r, c') := destroy client_failing_subscriber in
  r = Raise (ResourceError "subscriber") /\ ~ In 4%nat (destroy_calls c') /\
  ctxown c' <> None.
Proof.
  vm_compute. split; [reflexivity|split].
  - intros H. simpl in H. lia.
  - discriminate.
Qed.

(** Each guarded step of the teardown, field by field. *)
Lemma destroy_commandsocket_fields (c : client) :
  let c' := destroy_commandsocket c in
  commandsocket c' = survivor_zc (commandsocket c) /\
  configurationsocket c' = configurationsocket c /\
  subscriber c' = subscriber c /\ ctxown c' = ctxown c /\ ctx c' = ctx c /\
  destroy_calls c' = (ids_zc (commandsocket c) ++ destroy_calls c)%list.
Proof.
  destruct c as [h p cid [[i w f g]|] cfg sub own cx calls lg]; [destruct f|];
  repeat split.
Qed.

Lemma destroy_configurationsocket_fields (c : client) :
  let c' := destroy_configurationsocket c in
  commandsocket c' = commandsocket c /\
  configurationsocket c' = survivor_zc (configurationsocket c) /\
  subscriber c' = subscriber c /\ ctxown c' = ctxown c /\ ctx c' = ctx c /\
  destroy_calls c' = (ids_zc (configurationsocket c) ++ destroy_calls c)%list.
Proof.
  destruct c as [h p cid cs [[i w f g]|] sub own cx calls lg]; [destruct f|];
  repeat split.
Qed.

Lemma destroy_subscriber_ok (c : client) :
  match subscriber c with Some r => res_destroy_fails r = false | None => True end ->
  exists c', destroy_subscriber c = (Ok tt, c') /\
  commandsocket c' = commandsocket c /\
  configurationsocket c' = configurationsocket c /\
  subscriber c' = None /\ ctxown c' = ctxown c /\ ctx c' = ctx c /\
  destroy_calls c' = (ids_res (subscriber c) ++ destroy_calls c)%list.
Proof.
  destruct c as [h p cid cs cfg [[i f]|] own cx calls lg]; cbn; intros H;
  [subst f|]; eexists; repeat split.
Qed.

Lemma destroy_ctxown_fields (c : client) :
  let c' := destroy_ctxown c in
  commandsocket c' = commandsocket c /\
  configurationsocket c' = configurationsocket c /\
  subscriber c' = subscriber c /\ ctxown c' = survivor_res (ctxown c) /\
  destroy_calls c' = (ids_res (ctxown c) ++ destroy_calls c)%list.
Proof.
  destruct c as [h p cid cs cfg sub [[i f]|] cx calls lg]; [destruct f|];
  repeat split.
Qed.

(** With nothing left to release, [Destroy] changes nothing. *)
Lemma destroy_released (c : client) :
  commandsocket c = None -> configurationsocket c = None -> subscriber c = None ->
  ctxown c = None -> ctx c = None -> destroy c = (Ok tt, c).
Proof.
  destruct c as [h p cid cs cfg sub own cx calls lg]; cbn; intros -> -> -> -> ->.
  reflexivity.
Qed.

(** The [log.exception] messages of a guarded teardown step. *)
Definition failure_log_zc (o : option zmqclient) (m : string) : list string :=
  match o with Some s => if zc_destroy_fails s then [m] else [] | None => [] end.

Definition failure_log_res (o : option resource) (m : string) : list string :=
  match o with Some r => if res_destroy_fails r then [m] else [] | None => [] end.

Lemma destroy_steps_logged (c : client) :
  logged (destroy_commandsocket c) =
    (failure_log_zc (commandsocket c) "problem destroying commandsocket: %s" ++ logged c)%list /\
  logged (destroy_configurationsocket c) =
    (failure_log_zc (configurationsocket c) "problem destroying configurationsocket: %s" ++ logged c)%list /\
  logged (snd (destroy_subscriber c)) = logged c /\
  logged (destroy_ctxown c) =
    (failure_log_res (ctxown c) "problem destroying ctxown: %s" ++ logged c)%list.
Proof.
  destruct c as [h p cid cs cfg sub own cx calls lg].
  split; [destruct cs as [[i w [] g]|]; reflexivity|].
  split; [destruct cfg as [[i w [] g]|]; reflexivity|].
  split; [destruct sub as [[i []]|]; reflexivity|].
  destruct own as [[i []]|]; reflexivity.
Qed.

(** A [Destroy] that gets past the subscriber returns normally and logs one
    message per failed guarded step. *)
Lemma destroy_ok_log (c : client) :
  set_destroy c = Ok tt ->
  match subscriber c with Some r => res_destroy_fails r = false | None => True end ->
  fst (destroy c) = Ok tt /\
  logged (snd (destroy c)) =
  (failure_log_res (ctxown c) "problem destroying ctxown: %s" ++
   failure_log_zc (configurationsocket c) "problem destroying configurationsocket: %s" ++
   failure_log_zc (commandsocket c) "problem destroying commandsocket: %s" ++
   logged c)%list.
Proof.
  intros Hs Hsub. unfold destroy. rewrite Hs.
  destruct (destroy_commandsocket_fields c) as [A1 [A2 [A3 [A4 [A5 A6]]]]].
  destruct (destroy_steps_logged c) as [L1 _].
  set (c1 := destroy_commandsocket c) in *.
  destruct (destroy_configurationsocket_fields c1) as [B1 [B2 [B3 [B4 [B5 B6]]]]].
  destruct (destroy_steps_logged c1) as [_ [L2 _]].
  set (c2 := destroy_configurationsocket c1) in *.
  assert (Hsub2 : match subscriber c2 with
                  | Some r => res_destroy_fails r = false | None => True end)
    by (rewrite B3, A3; exact Hsub).
  destruct (destroy_steps_logged c2) as [_ [_ [L3 _]]].
  destruct (destroy_subscriber_ok c2 Hsub2) as [c3 [E [C1 [C2 [C3 [C4 [C5 C6]]]]]]].
  rewrite E in *. cbn [snd] in L3.
  destruct (destroy_steps_logged c3) as [_ [_ [_ L4]]].
  split; [reflexivity|]. cbn [snd logged with_ctx].
  rewrite L4, L3, L2, L1, C4, B4, A4, A2. reflexivity.
Qed.

(** C8 (amended): as long as [SetDestroy] and the subscriber's [Destroy] do
    not raise (those calls are not guarded), [Destroy] returns normally
    after calling the teardown of every resource present (command socket,
    configuration socket, subscriber, owned context, in this order); a
    failure of the command socket, configuration socket or owned context is
    caught, logged with one [log.exception] message each (in the order
    of the steps), and the teardown goes on.  It clears [ctx] and every reference
    whose teardown succeeded and keeps the others.  When no teardown
    raises, every reference is cleared and a second [Destroy] returns
    normally without touching anything. *)
Theorem destroy_isolates_failures (c : client)
    (Hset : set_destroy c = Ok tt)
    (Hsub : match subscriber c with Some r => res_destroy_fails r = false | None => True end) :
  let '(res, c') := destroy c in
  res = Ok tt /\
  commandsocket c' = survivor_zc (commandsocket c) /\
  configurationsocket c' = survivor_zc (configurationsocket c) /\
  subscriber c' = None /\
  ctxown c' = survivor_res (ctxown c) /\
  ctx c' = None /\
  destroy_calls c' = (ids_res (ctxown c) ++ ids_res (subscriber c) ++
                      ids_zc (configurationsocket c) ++ ids_zc (commandsocket c) ++
                      destroy_calls c)%list /\
  logged c' = (failure_log_res (ctxown c) "problem destroying ctxown: %s" ++
               failure_log_zc (configurationsocket c) "problem destroying configurationsocket: %s" ++
               failure_log_zc (commandsocket c) "problem destroying commandsocket: %s" ++
               logged c)%list /\
  (survivor_zc (commandsocket c) = None ->
   survivor_zc (configurationsocket c) = None ->
   survivor_res (ctxown c) = None ->
   destroy c' = (Ok tt, c')).
Proof.
  destruct (destroy_ok_log c Hset Hsub) as [_ L].
  unfold destroy at 1. unfold destroy in L. rewrite Hset in L |- *.
  destruct (destroy_commandsocket_fields c) as [A1 [A2 [A3 [A4 [A5 A6]]]]].
  set (c1 := destroy_commandsocket c) in *.
  destruct (destroy_configurationsocket_fields c1) as [B1 [B2 [B3 [B4 [B5 B6]]]]].
  set (c2 := destroy_configurationsocket c1) in *.
  assert (Hsub2 : match subscriber c2 with
                  | Some r => res_destroy_fails r = false | None => True end)
    by (rewrite B3, A3; exact Hsub).
  destruct (destroy_subscriber_ok c2 Hsub2) as [c3 [E [C1 [C2 [C3 [C4 [C5 C6]]]]]]].
  rewrite E.
  destruct (destroy_ctxown_fields c3) as [D1 [D2 [D3 [D4 D6]]]].
  set (c4 := destroy_ctxown c3) in *.
  assert (F1 : commandsocket (with_ctx None c4) = survivor_zc (commandsocket c))
    by (cbn; rewrite D1, C1, B1, A1; reflexivity).
  assert (F2 : configurationsocket (with_ctx None c4) = survivor_zc (configurationsocket c))
    by (cbn; rewrite D2, C2, B2, A2; reflexivity).
  assert (F3 : subscriber (with_ctx None c4) = None) by (cbn; rewrite D3, C3; reflexivity).
  assert (F4 : ctxown (with_ctx None c4) = survivor_res (ctxown c))
    by (cbn; rewrite D4, C4, B4, A4; reflexivity).
  assert (F5 : ctx (with_ctx None c4) = None) by reflexivity.
  split; [reflexivity|].
  split; [exact F1|]. split; [exact F2|]. split; [exact F3|].
  split; [exact F4|]. split; [exact F5|].
  split; [cbn; rewrite D6, C4, B4, A4, C6, B3, A3, B6, A2, A6; reflexivity|].
  split.
  - rewrite E in L. exact L.
  - intros G1 G2 G3. apply destroy_released; congruence.
Qed.

Definition sound_client : client :=
  {| hostname := "127.0.0.1"; commandport := 7004; callerid := PNone;
     commandsocket := Some (distinct_ids_socket 1 false);
     configurationsocket := Some (distinct_ids_socket 2 false);
     subscriber := Some {| res_id := 3; res_destroy_fails := false |};
     ctxown := Some {| res_id := 4; res_destroy_fails := false |};
     ctx := Some {| res_id := 4; res_destroy_fails := false |};
     destroy_calls := []; logged := [] |}.

Lemma destroy_isolates_failures_witness :
  set_destroy client_failing_commandsocket = Ok tt /\
  fst (destroy client_failing_commandsocket) = Ok tt /\
  commandsocket (snd (destroy client_failing_commandsocket))
    = Some (distinct_ids_socket 1 true) /\
  logged (snd (destroy client_failing_commandsocket))
    = ["problem destroying commandsocket: %s"] /\
  destroy (snd (destroy sound_client)) = (Ok tt, snd (destroy sound_client)).
Proof.
  pose proof (destroy_isolates_failures client_failing_commandsocket eq_refl eq_refl) as H1.
  pose proof (destroy_isolates_failures sound_client eq_refl eq_refl) as H2.
  destruct (destroy client_failing_commandsocket) as [r1 c1].
  destruct (destroy sound_client) as [r2 c2].
  destruct H1 as [E1 [E2 [_ [_ [_ [_ [_ [L1 _]]]]]]]].
  destruct H2 as [_ [_ [_ [_ [_ [_ [_ [_ H2]]]]]]]].
  split; [reflexivity|split; [exact E1|split; [exact E2|split]]].
  - cbn [snd]. rewrite L1. reflexivity.
  - exact (H2 eq_refl eq_refl eq_refl).
Defined.

(** ** Payload keys *)

Lemma in_keys_dict_set (d : dict) (k x : string) (v : pyval) :
  In x (dict_keys (dict_set d k v)) <-> x = k \/ In x (dict_keys d).
Proof.
  induction d as [|[k' v'] d IH]; cbn; [intuition congruence|].
  destruct (String.eqb_spec k k') as [->|Hne]; cbn; [intuition congruence|].
  rewrite IH. intuition congruence.
Qed.

Lemma in_keys_set_if (b : bool) (d : dict) (k x : string) (v : pyval) :
  In x (dict_keys (set_if b k v d)) <-> (b = true /\ x = k) \/ In x (dict_keys d).
Proof.
  destruct b; cbn; [rewrite in_keys_dict_set|]; intuition discriminate.
Qed.

Lemma in_keys_dict_update (d o : dict) (x : string) :
  In x (dict_keys (dict_update d o)) <-> In x (dict_keys d) \/ In x (dict_keys o).
Proof.
  revert d. induction o as [|[k v] o IH]; intros d; cbn; [tauto|].
  unfold dict_update in IH. rewrite IH, in_keys_dict_set. intuition.
Qed.

Lemma dict_get_dict_set_other (d : dict) (k x : string) (v : pyval) :
  k <> x -> dict_get (dict_set d k v) x = dict_get d x.
Proof.
  intros Hne. induction d as [|[k' v'] d IH]; cbn.
  - destruct (String.eqb_spec x k); [congruence|reflexivity].
  - destruct (String.eqb_spec k k') as [->|]; cbn.
    + destruct (String.eqb_spec x k'); [congruence|reflexivity].
    + rewrite IH. reflexivity.
Qed.

Lemma dict_get_set_if_other (b : bool) (d : dict) (k x : string) (v : pyval) :
  k <> x -> dict_get (set_if b k v d) x = dict_get d x.
Proof. destruct b; cbn; [apply dict_get_dict_set_other|reflexivity]. Qed.

Lemma dict_get_update_notin (d o : dict) (x : string) :
  ~ In x (dict_keys o) -> dict_get (dict_update d o) x = dict_get d x.
Proof.
  revert d. induction o as [|[k v] o IH]; intros d Hx; cbn; [reflexivity|].
  cbn in Hx. unfold dict_update in IH. rewrite IH by tauto.
  apply dict_get_dict_set_other. intros ->. tauto.
Qed.

Lemma dict_get_dict_set_same (d : dict) (k : string) (v : pyval) :
  dict_get (dict_set d k v) k = Some v.
Proof.
  induction d as [|[k' v'] d IH]; cbn; [rewrite String.eqb_refl; reflexivity|].
  destruct (String.eqb_spec k k') as [->|Hne]; cbn.
  - rewrite String.eqb_refl. reflexivity.
  - apply String.eqb_neq in Hne. rewrite Hne. exact IH.
Qed.

(** ** Claim C10 *)

(** A falsy value replaced by [None]. *)
Definition falsy_to_none (v : pyval) : pyval := if truthy v then v else PNone.

Lemma set_if_falsy_to_none (x : pyval) (k : string) (d : dict) :
  set_if (truthy (falsy_to_none x)) k (falsy_to_none x) d = set_if (truthy x) k x d.
Proof.
  unfold falsy_to_none. destruct (truthy x) eqn:E; [rewrite E|]; reflexivity.
Qed.

Ltac falsy_cases := repeat rewrite set_if_falsy_to_none; reflexivity.

(** C10 (counterexample): in [StartObjectDetectionTask] a supplied
    [cycleIndex] of 0 is gated by [is not None] and lands in the payload,
    unlike in [StopTask], where it is dropped. *)
Lemma cycle_index_zero_kept_by_start_task :
  In "cycleIndex"
     (dict_keys (start_object_detection_task_command []
        {| sodt_taskId := PNone; sodt_locationName := PNone;
           sodt_ignoreocclusion := PNone; sodt_targetDynamicDetectorParameters := PNone;
           sodt_detectionstarttimestamp := PNone; sodt_locale := PNone;
           sodt_maxnumfastdetection := PInt 1; sodt_maxnumdetection := PInt 0;
           sodt_stopOnNotNeedContainer := PNone; sodt_targetupdatename := PStr "";
           sodt_numthreads := PNone; sodt_cycleIndex := PInt 0;
           sodt_ignorePlanningState := PNone; sodt_ignoreDetectionFileUpdateChange := PNone;
           sodt_sendVerificationPointCloud := PNone; sodt_forceClearRegion := PNone;
           sodt_detectionTriggerMode := PNone; sodt_useLocationState := PNone |} [])) /\
  ~ In "cycleIndex"
     (dict_keys (stop_task_command PNone PNone PNone PNone (PInt 0) (PBool true) (PBool false))).
Proof.
  split; cbn; [tauto|].
  intros H. repeat (destruct H as [H|H]; [discriminate H|]). exact H.
Qed.

(** C10 (amended): where an operation gates its optional fields with
    [if x:] ([StopTask], [ResumeTask], [GetLatestDetectedObjects],
    [GetLatestDetectionResultImages], [GetVisionStatistics],
    [GetTaskStateService]), a supplied falsy value ('' , 0, [], False)
    gives the same payload as [None]; a client whose caller identifier is
    falsy (the empty string included) leaves every command and
    configuration dict without an added ['callerid']; and the start-task
    operations ([StartObjectDetectionTask], [StartContainerDetectionTask]),
    which gate [cycleIndex] with [is not None], put a supplied 0 in the
    payload, with the value 0 unless [kwargs] replaces it. *)
Theorem falsy_optional_fields_omitted :
  (forall taskId taskIds taskType taskTypes cycleIndex waitForStop removeTask,
     stop_task_command taskId taskIds taskType taskTypes cycleIndex waitForStop removeTask =
     stop_task_command (falsy_to_none taskId) (falsy_to_none taskIds)
       (falsy_to_none taskType) (falsy_to_none taskTypes) (falsy_to_none cycleIndex)
       waitForStop removeTask) /\
  (forall taskId taskIds taskType taskTypes cycleIndex waitForStop,
     resume_task_command taskId taskIds taskType taskTypes cycleIndex waitForStop =
     resume_task_command (falsy_to_none taskId) (falsy_to_none taskIds)
       (falsy_to_none taskType) (falsy_to_none taskTypes) (falsy_to_none cycleIndex)
       waitForStop) /\
  (forall taskId cycleIndex taskType,
     get_latest_detected_objects_command taskId cycleIndex taskType =
     get_latest_detected_objects_command (falsy_to_none taskId)
       (falsy_to_none cycleIndex) (falsy_to_none taskType)) /\
  (forall taskId cycleIndex taskType newerthantimestamp sensorSelectionInfo
          metadataOnly imageTypes limit,
     get_latest_detection_result_images_command taskId cycleIndex taskType
       newerthantimestamp sensorSelectionInfo metadataOnly imageTypes limit =
     get_latest_detection_result_images_command (falsy_to_none taskId)
       (falsy_to_none cycleIndex) (falsy_to_none taskType) newerthantimestamp
       (falsy_to_none sensorSelectionInfo) (falsy_to_none metadataOnly)
       (falsy_to_none imageTypes) (falsy_to_none limit)) /\
  (forall taskId cycleIndex taskType,
     get_vision_statistics_command taskId cycleIndex taskType =
     get_vision_statistics_command (falsy_to_none taskId)
       (falsy_to_none cycleIndex) (falsy_to_none taskType)) /\
  (forall taskId cycleIndex taskType,
     get_task_state_service_command taskId cycleIndex taskType =
     get_task_state_service_command (falsy_to_none taskId)
       (falsy_to_none cycleIndex) (falsy_to_none taskType)) /\
  (forall (send : send_fn) (c : client) (cmd : dict) (ff : bool) (timeout : pyval)
          (recvjson checkpreempt blockwait : bool),
     truthy (callerid c) = false ->
     inject_callerid c cmd = cmd /\
     snd (execute_command send c cmd ff timeout recvjson checkpreempt blockwait) = cmd /\
     snd (send_configuration send c cmd ff timeout checkpreempt recvjson) = cmd) /\
  (forall vminitparams a kwargs,
     sodt_cycleIndex a = PInt 0 ->
     In "cycleIndex" (dict_keys (start_object_detection_task_command vminitparams a kwargs)) /\
     (~ In "cycleIndex" (dict_keys kwargs) ->
      dict_get (start_object_detection_task_command vminitparams a kwargs) "cycleIndex"
      = Some (PInt 0))) /\
  (forall vminitparams a kwargs,
     scdt_cycleIndex a = PInt 0 ->
     In "cycleIndex" (dict_keys (start_container_detection_task_command vminitparams a kwargs)) /\
     (~ In "cycleIndex" (dict_keys kwargs) ->
      dict_get (start_container_detection_task_command vminitparams a kwargs) "cycleIndex"
      = Some (PInt 0))).
Proof.
  split; [intros; unfold stop_task_command; falsy_cases|].
  split; [intros; unfold resume_task_command; falsy_cases|].
  split; [intros; unfold get_latest_detected_objects_command; falsy_cases|].
  split; [intros; unfold get_latest_detection_result_images_command; falsy_cases|].
  split; [intros; unfold get_vision_statistics_command; falsy_cases|].
  split; [intros; unfold get_task_state_service_command; falsy_cases|].
  split.
  { intros send c cmd ff timeout recvjson checkpreempt blockwait Hc.
    assert (Hi : inject_callerid c cmd = cmd) by (unfold inject_callerid; rewrite Hc; reflexivity).
    split; [exact Hi|split].
    + unfold execute_command. rewrite Hi.
      destruct (commandsocket c) as [s|]; [|reflexivity].
      destruct (send s _ _ _ _ _ _). reflexivity.
    + unfold send_configuration. rewrite Hi.
      destruct (configurationsocket c) as [s|]; [|reflexivity].
      destruct (send s _ _ _ _ _ _). reflexivity. }
  split.
  - intros vminitparams a kwargs Hci. unfold start_object_detection_task_command.
    split.
    + rewrite in_keys_dict_update. left.
      repeat rewrite in_keys_set_if. rewrite Hci. cbn [is_not_none]. tauto.
    + intros Hk. rewrite dict_get_update_notin by exact Hk.
      repeat rewrite dict_get_set_if_other by discriminate.
      rewrite Hci. apply dict_get_dict_set_same.
  - intros vminitparams a kwargs Hci. unfold start_container_detection_task_command.
    split.
    + rewrite in_keys_dict_update. left.
      repeat rewrite in_keys_set_if. rewrite Hci. cbn [is_not_none]. tauto.
    + intros Hk. rewrite dict_get_update_notin by exact Hk.
      repeat rewrite dict_get_set_if_other by discriminate.
      rewrite Hci. apply dict_get_dict_set_same.
Qed.

(** A client configured with [callerid=''] and a command socket. *)
Definition client_empty_callerid : client :=
  {| hostname := "127.0.0.1"; commandport := 7004; callerid := PStr "";
     commandsocket := Some waiting_socket; configurationsocket := Some waiting_socket;
     subscriber := None; ctxown := None; ctx := None;
     destroy_calls := []; logged := [] |}.

(** [StartContainerDetectionTask] called with [cycleIndex=0]. *)
Definition container_cycle_zero : scdt_args :=
  {| scdt_taskId := PNone; scdt_locationName := PNone; scdt_ignoreocclusion := PNone;
     scdt_targetDynamicDetectorParameters := PNone; scdt_detectionstarttimestamp := PNone;
     scdt_locale := PNone; scdt_numthreads := PNone; scdt_cycleIndex := PInt 0;
     scdt_ignorePlanningState := PNone; scdt_stopOnNotNeedContainer := PNone;
     scdt_useLocationState := PNone |}.

Lemma falsy_optional_fields_omitted_witness :
  snd (execute_command (send_replying (PDict [])) client_empty_callerid
         (stop_task_command (PStr "") (PList []) PNone (PList []) (PInt 0)
            (PBool true) (PBool false))
         false (PFloat 2 0) true true true) =
  [("command", PStr "StopTask"); ("waitForStop", PBool true); ("removeTask", PBool false)] /\
  In "cycleIndex" (dict_keys (start_object_detection_task_command []
     {| sodt_taskId := PNone; sodt_locationName := PNone;
        sodt_ignoreocclusion := PNone; sodt_targetDynamicDetectorParameters := PNone;
        sodt_detectionstarttimestamp := PNone; sodt_locale := PNone;
        sodt_maxnumfastdetection := PInt 1; sodt_maxnumdetection := PInt 0;
        sodt_stopOnNotNeedContainer := PNone; sodt_targetupdatename := PStr "";
        sodt_numthreads := PNone; sodt_cycleIndex := PInt 0;
        sodt_ignorePlanningState := PNone; sodt_ignoreDetectionFileUpdateChange := PNone;
        sodt_sendVerificationPointCloud := PNone; sodt_forceClearRegion := PNone;
        sodt_detectionTriggerMode := PNone; sodt_useLocationState := PNone |} [])) /\
  dict_get (start_container_detection_task_command [] container_cycle_zero []) "cycleIndex"
  = Some (PInt 0).
Proof.
  destruct falsy_optional_fields_omitted
    as [Hstop [_ [_ [_ [_ [_ [Hcid [Hstart Hcont]]]]]]]].
  split; [|split].
  - destruct (Hcid (send_replying (PDict [])) client_empty_callerid
                (stop_task_command (PStr "") (PList []) PNone (PList []) (PInt 0)
                   (PBool true) (PBool false))
                false (PFloat 2 0) true true true eq_refl) as [_ [E _]].
    rewrite E, Hstop. reflexivity.
  - apply (Hstart [] _ []). reflexivity.
  - apply (Hcont [] container_cycle_zero [] eq_refl). intros [].
Defined.

(** ** Claim C7 *)

(** C7 (counterexample): called with no optional argument, [StopTask] sends
    [waitForStop] and [removeTask], and [StartObjectDetectionTask] sends
    [targetupdatename], [maxnumdetection] and [maxnumfastdetection]; a
    ['command'] entry in [vminitparams] replaces the operation name. *)
Lemma payload_holds_unsupplied_fields :
  dict_keys (stop_task_command PNone PNone PNone PNone PNone (PBool true) (PBool false))
  = ["command"; "waitForStop"; "removeTask"] /\
  dict_keys (start_object_detection_task_command [] sodt_defaults [])
  = ["command"; "targetupdatename"; "maxnumdetection"; "maxnumfastdetection"] /\
  dict_get (start_object_detection_task_command [("command", PStr "Other")] sodt_defaults [])
           "command" = Some (PStr "Other").
Proof. split; [reflexivity|split; reflexivity]. Qed.

Ltac command_field_tac :=
  repeat first
    [ rewrite dict_get_update_notin by assumption
    | rewrite dict_get_set_if_other by discriminate
    | rewrite dict_get_dict_set_other by discriminate ];
  reflexivity.

(** The keys of a payload: the [fixed] ones the operation always writes,
    those of the dicts it merges ([vminitparams], [**kwargs]), and each
    optional field whose gate holds. *)
Fixpoint merged_in (k : string) (ms : list dict) : Prop :=
  match ms with [] => False | m :: ms' => In k (dict_keys m) \/ merged_in k ms' end.

Fixpoint gated_in (k : string) (gs : list (bool * string)) : Prop :=
  match gs with [] => False | (b, n) :: gs' => (b = true /\ k = n) \/ gated_in k gs' end.

Definition payload_fields (p : dict) (fixed : list string) (merged : list dict)
    (gated : list (bool * string)) : Prop :=
  forall k, In k (dict_keys p) <-> In k fixed \/ merged_in k merged \/ gated_in k gated.

Ltac payload_fields_tac :=
  intros k; cbn [merged_in gated_in];
  repeat first [ rewrite in_keys_dict_update | rewrite in_keys_set_if ]; tauto.

Lemma sodt_payload (vminitparams kwargs : dict) (a : sodt_args) :
  payload_fields (start_object_detection_task_command vminitparams a kwargs)
    ["command"; "targetupdatename"] [vminitparams; kwargs]
    [(truthy (sodt_taskId a), "taskId");
     (is_not_none (sodt_locationName a), "locationName");
     (is_not_none (sodt_ignoreocclusion a), "ignoreocclusion");
     (is_not_none (sodt_targetDynamicDetectorParameters a), "targetDynamicDetectorParameters");
     (is_not_none (sodt_detectionstarttimestamp a), "detectionstarttimestamp");
     (is_not_none (sodt_locale a), "locale");
     (is_not_none (sodt_sendVerificationPointCloud a), "sendVerificationPointCloud");
     (is_not_none (sodt_stopOnNotNeedContainer a), "stopOnNotNeedContainer");
     (is_not_none (sodt_maxnumdetection a), "maxnumdetection");
     (is_not_none (sodt_maxnumfastdetection a), "maxnumfastdetection");
     (is_not_none (sodt_numthreads a), "numthreads");
     (is_not_none (sodt_cycleIndex a), "cycleIndex");
     (is_not_none (sodt_ignorePlanningState a), "ignorePlanningState");
     (is_not_none (sodt_ignoreDetectionFileUpdateChange a), "ignoreDetectionFileUpdateChange");
     (is_not_none (sodt_forceClearRegion a), "forceClearRegion");
     (is_not_none (sodt_detectionTriggerMode a), "detectionTriggerMode");
     (is_not_none (sodt_useLocationState a), "useLocationState")] /\
  (~ In "command" (dict_keys vminitparams) -> ~ In "command" (dict_keys kwargs) ->
   dict_get (start_object_detection_task_command vminitparams a kwargs) "command"
   = Some (PStr "StartObjectDetectionTask")).
Proof.
  unfold start_object_detection_task_command.
  split; [payload_fields_tac|intros; command_field_tac].
Qed.

Lemma scdt_payload (vminitparams kwargs : dict) (a : scdt_args) :
  payload_fields (start_container_detection_task_command vminitparams a kwargs)
    ["command"] [vminitparams; kwargs]
    [(truthy (scdt_taskId a), "taskId");
     (is_not_none (scdt_locationName a), "locationName");
     (is_not_none (scdt_ignoreocclusion a), "ignoreocclusion");
     (is_not_none (scdt_targetDynamicDetectorParameters a), "targetDynamicDetectorParameters");
     (is_not_none (scdt_detectionstarttimestamp a), "detectionstarttimestamp");
     (is_not_none (scdt_locale a), "locale");
     (is_not_none (scdt_numthreads a), "numthreads");
     (is_not_none (scdt_cycleIndex a), "cycleIndex");
     (is_not_none (scdt_ignorePlanningState a), "ignorePlanningState");
     (is_not_none (scdt_stopOnNotNeedContainer a), "stopOnNotNeedContainer");
     (is_not_none (scdt_useLocationState a), "useLocationState")] /\
  (~ In "command" (dict_keys vminitparams) -> ~ In "command" (dict_keys kwargs) ->
   dict_get (start_container_detection_task_command vminitparams a kwargs) "command"
   = Some (PStr "StartContainerDetectionTask")).
Proof.
  unfold start_container_detection_task_command.
  split; [payload_fields_tac|intros; command_field_tac].
Qed.

Lemma svpct_payload (vminitparams : dict) (a : svpct_args) (p : dict) :
  start_visualize_point_cloud_task_command vminitparams a = Ok p ->
  payload_fields p ["command"] [vminitparams]
    [(is_not_none (svpct_locationName a), "locationName");
     (is_not_none (svpct_sensorSelectionInfos a), "sensorSelectionInfos");
     (is_not_none (svpct_pointsize a), "pointsize");
     (is_not_none (svpct_ignoreocclusion a), "ignoreocclusion");
     (is_not_none (svpct_newerthantimestamp a), "newerthantimestamp");
     (is_not_none (svpct_request a), "request");
     (is_not_none (svpct_filteringsubsample a), "filteringsubsample");
     (is_not_none (svpct_filteringvoxelsize a), "filteringvoxelsize");
     (is_not_none (svpct_filteringstddev a), "filteringstddev");
     (is_not_none (svpct_filteringnumnn a), "filteringnumnn")] /\
  (~ In "command" (dict_keys vminitparams) ->
   dict_get p "command" = Some (PStr "StartVisualizePointCloudTask")).
Proof.
  unfold start_visualize_point_cloud_task_command.
  destruct (is_not_none (svpct_sensorSelectionInfos a)) eqn:Hs.
  - destruct (py_list (svpct_sensorSelectionInfos a)) as [l|e]; cbn [bind]; [|discriminate].
    intros H. injection H as <-. split; [|intros; command_field_tac].
    intros k; cbn [merged_in gated_in].
    repeat first [ rewrite in_keys_dict_update | rewrite in_keys_set_if
                 | rewrite in_keys_dict_set ]; intuition (try congruence).
  - cbn [bind]. intros H. injection H as <-. split; [|intros; command_field_tac].
    intros k; cbn [merged_in gated_in].
    repeat first [ rewrite in_keys_dict_update | rewrite in_keys_set_if ];
    intuition (try congruence).
Qed.

Lemma stop_task_payload (taskId taskIds taskType taskTypes cycleIndex waitForStop removeTask : pyval) :
  payload_fields (stop_task_command taskId taskIds taskType taskTypes cycleIndex waitForStop removeTask)
    ["command"; "waitForStop"; "removeTask"] []
    [(truthy taskId, "taskId"); (truthy taskIds, "taskIds"); (truthy taskType, "taskType");
     (truthy taskTypes, "taskTypes"); (truthy cycleIndex, "cycleIndex")] /\
  dict_get (stop_task_command taskId taskIds taskType taskTypes cycleIndex waitForStop removeTask)
    "command" = Some (PStr "StopTask").
Proof. unfold stop_task_command. split; [payload_fields_tac|command_field_tac]. Qed.

Lemma resume_task_payload (taskId taskIds taskType taskTypes cycleIndex waitForStop : pyval) :
  payload_fields (resume_task_command taskId taskIds taskType taskTypes cycleIndex waitForStop)
    ["command"; "waitForStop"] []
    [(truthy taskId, "taskId"); (truthy taskIds, "taskIds"); (truthy taskType, "taskType");
     (truthy taskTypes, "taskTypes"); (truthy cycleIndex, "cycleIndex")] /\
  dict_get (resume_task_command taskId taskIds taskType taskTypes cycleIndex waitForStop)
    "command" = Some (PStr "ResumeTask").
Proof. unfold resume_task_command. split; [payload_fields_tac|command_field_tac]. Qed.

Lemma backup_vision_log_payload (cycleIndex sensorTimestamps : pyval) :
  payload_fields (backup_vision_log_command cycleIndex sensorTimestamps)
    ["command"; "cycleIndex"; "sensorTimestamps"] [] [] /\
  dict_get (backup_vision_log_command cycleIndex sensorTimestamps) "command"
  = Some (PStr "BackupDetectionLogs").
Proof. split; [intros k; simpl; tauto | reflexivity]. Qed.

Lemma get_latest_detected_objects_payload (taskId cycleIndex taskType : pyval) :
  payload_fields (get_latest_detected_objects_command taskId cycleIndex taskType)
    ["command"] []
    [(truthy taskId, "taskId"); (truthy cycleIndex, "cycleIndex"); (truthy taskType, "taskType")] /\
  dict_get (get_latest_detected_objects_command taskId cycleIndex taskType) "command"
  = Some (PStr "GetLatestDetectedObjects").
Proof. unfold get_latest_detected_objects_command. split; [payload_fields_tac|command_field_tac]. Qed.

Lemma get_latest_detection_result_images_payload (taskId cycleIndex taskType
    newerthantimestamp sensorSelectionInfo metadataOnly imageTypes limit : pyval) :
  payload_fields (get_latest_detection_result_images_command taskId cycleIndex taskType
                    newerthantimestamp sensorSelectionInfo metadataOnly imageTypes limit)
    ["command"; "newerthantimestamp"] []
    [(truthy taskId, "taskId"); (truthy cycleIndex, "cycleIndex"); (truthy taskType, "taskType");
     (truthy sensorSelectionInfo, "sensorSelectionInfo"); (truthy metadataOnly, "metadataOnly");
     (truthy imageTypes, "imageTypes"); (truthy limit, "limit")] /\
  dict_get (get_latest_detection_result_images_command taskId cycleIndex taskType
              newerthantimestamp sensorSelectionInfo metadataOnly imageTypes limit) "command"
  = Some (PStr "GetLatestDetectionResultImages").
Proof.
  unfold get_latest_detection_result_images_command.
  split; [payload_fields_tac|command_field_tac].
Qed.

Lemma get_detection_history_payload (timestamp : pyval) :
  payload_fields (get_detection_history_command timestamp) ["command"; "timestamp"] [] [] /\
  dict_get (get_detection_history_command timestamp) "command" = Some (PStr "GetDetectionHistory").
Proof. split; [intros k; simpl; tauto | reflexivity]. Qed.

Lemma get_vision_statistics_payload (taskId cycleIndex taskType : pyval) :
  payload_fields (get_vision_statistics_command taskId cycleIndex taskType)
    ["command"] []
    [(truthy taskId, "taskId"); (truthy cycleIndex, "cycleIndex"); (truthy taskType, "taskType")] /\
  dict_get (get_vision_statistics_command taskId cycleIndex taskType) "command"
  = Some (PStr "GetVisionStatistics").
Proof. unfold get_vision_statistics_command. split; [payload_fields_tac|command_field_tac]. Qed.

Lemma configuration_payloads (componentLevels : pyval) :
  (payload_fields ping_command ["command"] [] [] /\
   dict_get ping_command "command" = Some (PStr "Ping")) /\
  (payload_fields (set_log_level_command componentLevels) ["command"; "componentLevels"] [] [] /\
   dict_get (set_log_level_command componentLevels) "command" = Some (PStr "SetLogLevel")) /\
  (payload_fields cancel_command ["command"] [] [] /\
   dict_get cancel_command "command" = Some (PStr "Cancel")) /\
  (payload_fields quit_command ["command"] [] [] /\
   dict_get quit_command "command" = Some (PStr "Quit")) /\
  (payload_fields get_published_state_service_command ["command"] [] [] /\
   dict_get get_published_state_service_command "command" = Some (PStr "GetPublishedState")).
Proof. repeat split; try reflexivity; intros; simpl in *; tauto. Qed.

Lemma get_task_state_service_payload (taskId cycleIndex taskType : pyval) :
  payload_fields (get_task_state_service_command taskId cycleIndex taskType)
    ["command"] []
    [(truthy taskId, "taskId"); (truthy cycleIndex, "cycleIndex"); (truthy taskType, "taskType")] /\
  dict_get (get_task_state_service_command taskId cycleIndex taskType) "command"
  = Some (PStr "GetTaskState").
Proof. unfold get_task_state_service_command. split; [payload_fields_tac|command_field_tac]. Qed.

(** C7 (amended): every high-level operation builds its payload with a
    ['command'] field holding the operation's wire name (BackupVisionLog
    sends ['BackupDetectionLogs'], GetTaskStateService ['GetTaskState'],
    GetPublishedStateService ['GetPublishedState']); in the start-task
    operations a ['command'] entry of [vminitparams] or [**kwargs] overrides
    it. The payload's keys are exactly ['command'], the fields the operation
    always writes, the keys of [vminitparams] and [**kwargs], and each
    optional field whose argument passes its gate: [is not None] in the
    start-task operations (truthiness for the taskId of the detection
    tasks), truthiness in the others. So arguments defaulting to [None] are
    absent at their defaults, while the defaults [maxnumdetection=0],
    [maxnumfastdetection=1] and [request=True] are sent. *)
Theorem payload_fields_by_operation :
  (forall (vminitparams kwargs : dict) (a : sodt_args),
   payload_fields (start_object_detection_task_command vminitparams a kwargs)
     ["command"; "targetupdatename"] [vminitparams; kwargs]
     [(truthy (sodt_taskId a), "taskId");
      (is_not_none (sodt_locationName a), "locationName");
      (is_not_none (sodt_ignoreocclusion a), "ignoreocclusion");
      (is_not_none (sodt_targetDynamicDetectorParameters a), "targetDynamicDetectorParameters");
      (is_not_none (sodt_detectionstarttimestamp a), "detectionstarttimestamp");
      (is_not_none (sodt_locale a), "locale");
      (is_not_none (sodt_sendVerificationPointCloud a), "sendVerificationPointCloud");
      (is_not_none (sodt_stopOnNotNeedContainer a), "stopOnNotNeedContainer");
      (is_not_none (sodt_maxnumdetection a), "maxnumdetection");
      (is_not_none (sodt_maxnumfastdetection a), "maxnumfastdetection");
      (is_not_none (sodt_numthreads a), "numthreads");
      (is_not_none (sodt_cycleIndex a), "cycleIndex");
      (is_not_none (sodt_ignorePlanningState a), "ignorePlanningState");
      (is_not_none (sodt_ignoreDetectionFileUpdateChange a), "ignoreDetectionFileUpdateChange");
      (is_not_none (sodt_forceClearRegion a), "forceClearRegion");
      (is_not_none (sodt_detectionTriggerMode a), "detectionTriggerMode");
      (is_not_none (sodt_useLocationState a), "useLocationState")] /\
   (~ In "command" (dict_keys vminitparams) -> ~ In "command" (dict_keys kwargs) ->
    dict_get (start_object_detection_task_command vminitparams a kwargs) "command"
    = Some (PStr "StartObjectDetectionTask"))) /\
  (forall (vminitparams kwargs : dict) (a : scdt_args),
   payload_fields (start_container_detection_task_command vminitparams a kwargs)
     ["command"] [vminitparams; kwargs]
     [(truthy (scdt_taskId a), "taskId");
      (is_not_none (scdt_locationName a), "locationName");
      (is_not_none (scdt_ignoreocclusion a), "ignoreocclusion");
      (is_not_none (scdt_targetDynamicDetectorParameters a), "targetDynamicDetectorParameters");
      (is_not_none (scdt_detectionstarttimestamp a), "detectionstarttimestamp");
      (is_not_none (scdt_locale a), "locale");
      (is_not_none (scdt_numthreads a), "numthreads");
      (is_not_none (scdt_cycleIndex a), "cycleIndex");
      (is_not_none (scdt_ignorePlanningState a), "ignorePlanningState");
      (is_not_none (scdt_stopOnNotNeedContainer a), "stopOnNotNeedContainer");
      (is_not_none (scdt_useLocationState a), "useLocationState")] /\
   (~ In "command" (dict_keys vminitparams) -> ~ In "command" (dict_keys kwargs) ->
    dict_get (start_container_detection_task_command vminitparams a kwargs) "command"
    = Some (PStr "StartContainerDetectionTask"))) /\
  (forall (vminitparams : dict) (a : svpct_args) (p : dict),
   start_visualize_point_cloud_task_command vminitparams a = Ok p ->
   payload_fields p ["command"] [vminitparams]
     [(is_not_none (svpct_locationName a), "locationName");
      (is_not_none (svpct_sensorSelectionInfos a), "sensorSelectionInfos");
      (is_not_none (svpct_pointsize a), "pointsize");
      (is_not_none (svpct_ignoreocclusion a), "ignoreocclusion");
      (is_not_none (svpct_newerthantimestamp a), "newerthantimestamp");
      (is_not_none (svpct_request a), "request");
      (is_not_none (svpct_filteringsubsample a), "filteringsubsample");
      (is_not_none (svpct_filteringvoxelsize a), "filteringvoxelsize");
      (is_not_none (svpct_filteringstddev a), "filteringstddev");
      (is_not_none (svpct_filteringnumnn a), "filteringnumnn")] /\
   (~ In "command" (dict_keys vminitparams) ->
    dict_get p "command" = Some (PStr "StartVisualizePointCloudTask"))) /\
  (forall taskId taskIds taskType taskTypes cycleIndex waitForStop removeTask,
   payload_fields (stop_task_command taskId taskIds taskType taskTypes cycleIndex waitForStop removeTask)
     ["command"; "waitForStop"; "removeTask"] []
     [(truthy taskId, "taskId"); (truthy taskIds, "taskIds"); (truthy taskType, "taskType");
      (truthy taskTypes, "taskTypes"); (truthy cycleIndex, "cycleIndex")] /\
   dict_get (stop_task_command taskId taskIds taskType taskTypes cycleIndex waitForStop removeTask)
     "command" = Some (PStr "StopTask")) /\
  (forall taskId taskIds taskType taskTypes cycleIndex waitForStop,
   payload_fields (resume_task_command taskId taskIds taskType taskTypes cycleIndex waitForStop)
     ["command"; "waitForStop"] []
     [(truthy taskId, "taskId"); (truthy taskIds, "taskIds"); (truthy taskType, "taskType");
      (truthy taskTypes, "taskTypes"); (truthy cycleIndex, "cycleIndex")] /\
   dict_get (resume_task_command taskId taskIds taskType taskTypes cycleIndex waitForStop)
     "command" = Some (PStr "ResumeTask")) /\
  (forall cycleIndex sensorTimestamps,
   payload_fields (backup_vision_log_command cycleIndex sensorTimestamps)
     ["command"; "cycleIndex"; "sensorTimestamps"] [] [] /\
   dict_get (backup_vision_log_command cycleIndex sensorTimestamps) "command"
   = Some (PStr "BackupDetectionLogs")) /\
  (forall taskId cycleIndex taskType,
   payload_fields (get_latest_detected_objects_command taskId cycleIndex taskType)
     ["command"] []
     [(truthy taskId, "taskId"); (truthy cycleIndex, "cycleIndex"); (truthy taskType, "taskType")] /\
   dict_get (get_latest_detected_objects_command taskId cycleIndex taskType) "command"
   = Some (PStr "GetLatestDetectedObjects")) /\
  (forall taskId cycleIndex taskType newerthantimestamp sensorSelectionInfo metadataOnly
          imageTypes limit,
   payload_fields (get_latest_detection_result_images_command taskId cycleIndex taskType
                     newerthantimestamp sensorSelectionInfo metadataOnly imageTypes limit)
     ["command"; "newerthantimestamp"] []
     [(truthy taskId, "taskId"); (truthy cycleIndex, "cycleIndex"); (truthy taskType, "taskType");
      (truthy sensorSelectionInfo, "sensorSelectionInfo"); (truthy metadataOnly, "metadataOnly");
      (truthy imageTypes, "imageTypes"); (truthy limit, "limit")] /\
   dict_get (get_latest_detection_result_images_command taskId cycleIndex taskType
               newerthantimestamp sensorSelectionInfo metadataOnly imageTypes limit) "command"
   = Some (PStr "GetLatestDetectionResultImages")) /\
  (forall timestamp,
   payload_fields (get_detection_history_command timestamp) ["command"; "timestamp"] [] [] /\
   dict_get (get_detection_history_command timestamp) "command" = Some (PStr "GetDetectionHistory")) /\
  (forall taskId cycleIndex taskType,
   payload_fields (get_vision_statistics_command taskId cycleIndex taskType)
     ["command"] []
     [(truthy taskId, "taskId"); (truthy cycleIndex, "cycleIndex"); (truthy taskType, "taskType")] /\
   dict_get (get_vision_statistics_command taskId cycleIndex taskType) "command"
   = Some (PStr "GetVisionStatistics")) /\
  (forall componentLevels,
   (payload_fields ping_command ["command"] [] [] /\
    dict_get ping_command "command" = Some (PStr "Ping")) /\
   (payload_fields (set_log_level_command componentLevels) ["command"; "componentLevels"] [] [] /\
    dict_get (set_log_level_command componentLevels) "command" = Some (PStr "SetLogLevel")) /\
   (payload_fields cancel_command ["command"] [] [] /\
    dict_get cancel_command "command" = Some (PStr "Cancel")) /\
   (payload_fields quit_command ["command"] [] [] /\
    dict_get quit_command "command" = Some (PStr "Quit")) /\
   (payload_fields get_published_state_service_command ["command"] [] [] /\
    dict_get get_published_state_service_command "command" = Some (PStr "GetPublishedState"))) /\
  (forall taskId cycleIndex taskType,
   payload_fields (get_task_state_service_command taskId cycleIndex taskType)
     ["command"] []
     [(truthy taskId, "taskId"); (truthy cycleIndex, "cycleIndex"); (truthy taskType, "taskType")] /\
   dict_get (get_task_state_service_command taskId cycleIndex taskType) "command"
   = Some (PStr "GetTaskState")).
Proof.
  split; [exact sodt_payload|].
  split; [exact scdt_payload|].
  split; [exact svpct_payload|].
  split; [exact stop_task_payload|].
  split; [exact resume_task_payload|].
  split; [exact backup_vision_log_payload|].
  split; [exact get_latest_detected_objects_payload|].
  split; [exact get_latest_detection_result_images_payload|].
  split; [exact get_detection_history_payload|].
  split; [exact get_vision_statistics_payload|].
  split; [exact configuration_payloads|].
  exact get_task_state_service_payload.
Qed.

(** At the defaults, the StartObjectDetectionTask payload is named by its
    operation and carries [maxnumdetection] but no [taskId]; StopTask with
    [taskId=''] carries no [taskId]. *)
Lemma payload_fields_by_operation_witness :
  dict_get (start_object_detection_task_command [] sodt_defaults []) "command"
  = Some (PStr "StartObjectDetectionTask") /\
  In "maxnumdetection" (dict_keys (start_object_detection_task_command [] sodt_defaults [])) /\
  ~ In "taskId" (dict_keys (start_object_detection_task_command [] sodt_defaults [])) /\
  ~ In "taskId" (dict_keys (stop_task_command (PStr "") PNone PNone PNone PNone
                              (PBool true) (PBool false))).
Proof.
  destruct payload_fields_by_operation as [Hsodt [_ [_ [Hstop _]]]].
  destruct (Hsodt [] [] sodt_defaults) as [Hk Hc].
  destruct (Hstop (PStr "") PNone PNone PNone PNone (PBool true) (PBool false)) as [Hk' _].
  split; [apply Hc; simpl; tauto|].
  split; [apply (proj2 (Hk "maxnumdetection")); cbn; tauto|].
  split.
  - intros H. apply (proj1 (Hk "taskId")) in H. cbn in H.
    intuition discriminate.
  - intros H. apply (proj1 (Hk' "taskId")) in H. cbn in H.
    intuition discriminate.
Defined.

(** * Further properties of the client *)

(** X1: with [recvjson] set, [_ProcessResponse] returns the reply itself
    exactly when ['error' in response] is false; a reply that is None, a
    bool or a number makes that membership test raise [TypeError], and so
    does a list reply that contains the string 'error'. *)
Theorem json_mode_validation (r command : pyval) :
  (forall v, process_response r command true = Ok v <->
             v = r /\ py_in_str "error" r = Ok false) /\
  ((r = PNone \/ (exists b, r = PBool b) \/ (exists z, r = PInt z) \/
    (exists m e, r = PFloat m e) \/ (exists n, r = PFloatInf n) \/ r = PFloatNaN) ->
   process_response r command true = Raise TypeError) /\
  (forall l, r = PList l -> In (PStr "error") l ->
   process_response r command true = Raise TypeError).
Proof.
  split; [|split].
  - intros v. unfold process_response.
    destruct (py_in_str "error" r) as [[|]|e]; cbn.
    + split; [discriminate|intros [_ H]; discriminate].
    + split; [intros H; injection H as <-; auto|intros [-> _]; reflexivity].
    + split; [discriminate|intros [_ H]; discriminate].
  - intros [->|[[b ->]|[[z ->]|[[m [e ->]]|[[n ->]| ->]]]]]; reflexivity.
  - intros l -> Hin. unfold process_response, py_in_str, bind.
    assert (E : existsb (pyval_eqb (PStr "error")) l = true).
    { apply existsb_exists. exists (PStr "error"). split; [exact Hin|reflexivity]. }
    rewrite E. cbn. reflexivity.
Qed.

(** X2: whenever [_ProcessResponse] succeeds on a raw reply
    ([recvjson] false), the value it returns is non-empty, and when that
    value is a dict it has no ['error'] key. *)
Theorem raw_mode_success_invariants (r command v : pyval) :
  process_response r command false = Ok v ->
  (exists n, py_len v = Ok (S n)) /\
  (forall d, v = PDict d -> ~ In "error" (dict_keys d)).
Proof.
  unfold process_response.
  destruct (py_len r) as [n|e] eqn:Hn; cbn; [|discriminate].
  match goal with |- bind ?m _ = _ -> _ => destruct m as [b|e] eqn:Hb end; cbn [bind]; [|discriminate].
  match goal with |- bind ?m _ = _ -> _ => destruct m as [resp|e] eqn:Hr end; cbn [bind]; [|discriminate].
  destruct (py_len resp) as [n'|e] eqn:Hn'; cbn [bind]; [|discriminate].
  destruct (n' =? 0)%nat eqn:Hz; [discriminate|].
  intros H; injection H as <-.
  split.
  - destruct n' as [|n'']; [discriminate|]. eauto.
  - intros d ->. destruct b.
    + destruct (py_json_loads r) as [x|e]; cbn [bind] in Hr; [|discriminate].
      destruct (py_in_str "error" x) as [[|]|e] eqn:He; cbn [bind] in Hr; try discriminate.
      injection Hr as ->.
      intros Hin. assert (existsb (String.eqb "error") (dict_keys d) = true) as E.
      { apply existsb_exists. exists "error". split; [exact Hin|apply String.eqb_refl]. }
      assert (E' : py_in_str "error" (PDict d) = Ok true) by (unfold py_in_str; rewrite E; reflexivity).
      congruence.
    + injection Hr as ->. cbn in Hn. injection Hn as <-.
      destruct d as [|kv d]; [cbn; tauto|].
      cbn in Hb. discriminate.
Qed.

Definition empty_response_error (command response : pyval) : exn :=
  VisionControllerClientError
    (MFormat empty_response_template (PDict [("command", command); ("response", response)]))
    (PStr "emptyresponseerror").

Lemma process_response_command_only_named (r c1 c2 : pyval) (recvjson : bool) :
  process_response r c1 recvjson = process_response r c2 recvjson \/
  exists resp, process_response r c1 recvjson = Raise (empty_response_error c1 resp) /\
               process_response r c2 recvjson = Raise (empty_response_error c2 resp).
Proof.
  destruct recvjson; [left; reflexivity|].
  unfold process_response.
  destruct (py_len r) as [n|e]; cbn [bind]; [|left; reflexivity].
  match goal with |- bind ?m _ = _ \/ _ => destruct m as [b|e] end; cbn [bind]; [|left; reflexivity].
  match goal with |- bind ?m _ = _ \/ _ => destruct m as [resp|e] end; cbn [bind]; [|left; reflexivity].
  destruct (py_len resp) as [n'|e]; cbn [bind]; [|left; reflexivity].
  destruct (n' =? 0)%nat; [right; exists resp; split; reflexivity|left; reflexivity].
Qed.

Lemma execute_command_sent (send : send_fn) (c : client) (s s' : zmqclient) (cmd : dict)
    (ff : bool) (timeout : pyval) (rj cp bw : bool) (sent : result pyval) :
  commandsocket c = Some s ->
  send s (PDict (inject_callerid c cmd)) ff timeout rj cp bw = (sent, s') ->
  execute_command send c cmd ff timeout rj cp bw =
  ((response <- sent ;;
    if bw && negb ff then process_response response (PDict (inject_callerid c cmd)) rj
    else Ok response), with_commandsocket (Some s') c, inject_callerid c cmd).
Proof. intros Hs Hsend. unfold execute_command. rewrite Hs, Hsend. reflexivity. Qed.

(** X3: [GetLatestDetectionResultImages] with [blockwait=False] returns the
    acknowledgement of [SendCommand] unvalidated; the later
    [WaitForGetLatestDetectionResultImages] receives the reply and validates
    it in raw mode, with the same outcome as the blocking call on that reply,
    except that an empty reply's error names command None instead of the
    sent command. *)
Theorem deferred_images_validated_on_wait (send : send_fn) (recv : recv_fn) (c : client)
    (s s1 s2 : zmqclient)
    (taskId cycleIndex taskType newerthantimestamp sensorSelectionInfo metadataOnly
     imageTypes limit timeout timeout' ack r : pyval) :
  let cmd := inject_callerid c
               (get_latest_detection_result_images_command taskId cycleIndex taskType
                  newerthantimestamp sensorSelectionInfo metadataOnly imageTypes limit) in
  commandsocket c = Some s ->
  send s (PDict cmd) false timeout false true false = (Ok ack, s1) ->
  zc_waiting_reply s1 = true ->
  recv s1 timeout' false = (Received r, s2) ->
  let '(res1, c1) := GetLatestDetectionResultImages send c taskId cycleIndex taskType
                       newerthantimestamp sensorSelectionInfo metadataOnly imageTypes limit
                       false timeout in
  let blocking := fst (GetLatestDetectionResultImages (fun s0 _ _ _ _ _ _ => (Ok r, s0)) c
                         taskId cycleIndex taskType newerthantimestamp sensorSelectionInfo
                         metadataOnly imageTypes limit true timeout) in
  let waited := fst (WaitForGetLatestDetectionResultImages recv c1 timeout') in
  res1 = Ok ack /\ waited = process_response r PNone false /\
  (waited = blocking \/
   exists resp, waited = Raise (empty_response_error PNone resp) /\
                blocking = Raise (empty_response_error (PDict cmd) resp)).
Proof.
  intros cmd Hs Hsend Hw Hrecv.
  unfold GetLatestDetectionResultImages.
  rewrite (execute_command_sent send c s s1 _ false timeout false true false (Ok ack) Hs Hsend).
  rewrite (execute_command_sent _ c s s _ false timeout false true true (Ok r) Hs eq_refl).
  cbn [fst bind andb negb].
  unfold WaitForGetLatestDetectionResultImages, wait_for_response. cbn [commandsocket with_commandsocket].
  rewrite Hw. cbn [negb]. rewrite Hrecv. cbn [fst].
  split; [reflexivity|split; [reflexivity|]].
  exact (process_response_command_only_named r PNone (PDict cmd) false).
Qed.

Lemma execute_command_dict (send : send_fn) (c : client) (cmd : dict) ff t rj cp bw :
  snd (execute_command send c cmd ff t rj cp bw) = inject_callerid c cmd.
Proof.
  unfold execute_command. destruct (commandsocket c) as [s|]; [|reflexivity].
  destruct (send _ _ _ _ _ _ _). reflexivity.
Qed.

Lemma send_configuration_dict (send : send_fn) (c : client) (cmd : dict) ff t cp rj :
  snd (send_configuration send c cmd ff t cp rj) = inject_callerid c cmd.
Proof.
  unfold send_configuration. destruct (configurationsocket c) as [s|]; [|reflexivity].
  destruct (send _ _ _ _ _ _ _). reflexivity.
Qed.

(** X4: with a truthy [callerid], [_ExecuteCommand] and
    [_SendConfiguration] write it into the caller's command dict, overwriting
    any ['callerid'] already there and leaving the other keys alone; a client
    with a falsy [callerid] passes the dict through unchanged, so it keeps
    the callerid of the earlier client. *)
Theorem callerid_written_into_caller_dict (send send' : send_fn) (c1 c2 : client)
    (cmd : dict) (ff ff' : bool) (t t' : pyval) (rj cp bw rj' cp' bw' : bool) :
  truthy (callerid c1) = true ->
  let cmd1 := snd (execute_command send c1 cmd ff t rj cp bw) in
  dict_get cmd1 "callerid" = Some (callerid c1) /\
  (forall k, k <> "callerid" -> dict_get cmd1 k = dict_get cmd k) /\
  snd (send_configuration send c1 cmd ff t cp rj) = cmd1 /\
  (truthy (callerid c2) = false ->
   snd (execute_command send' c2 cmd1 ff' t' rj' cp' bw') = cmd1 /\
   snd (send_configuration send' c2 cmd1 ff' t' cp' rj') = cmd1).
Proof.
  intros Ht cmd1. unfold cmd1. rewrite !execute_command_dict, send_configuration_dict.
  unfold inject_callerid at 1 2 3 4. rewrite Ht.
  split; [apply dict_get_dict_set_same|].
  split; [intros k Hk; apply dict_get_dict_set_other; congruence|].
  split; [reflexivity|].
  intros H2. rewrite send_configuration_dict. unfold inject_callerid. rewrite H2, Ht. split; reflexivity.
Qed.

Lemma destroy_subscriber_fields (c : client) :
  let c' := snd (destroy_subscriber c) in
  commandsocket c' = commandsocket c /\ configurationsocket c' = configurationsocket c /\
  ctxown c' = ctxown c /\ ctx c' = ctx c /\
  destroy_calls c' = (ids_res (subscriber c) ++ destroy_calls c)%list /\
  (fst (destroy_subscriber c) = Ok tt -> subscriber c' = None) /\
  (forall e, fst (destroy_subscriber c) = Raise e ->
   subscriber c' = subscriber c /\
   exists r, subscriber c = Some r /\ res_destroy_fails r = true).
Proof.
  destruct c as [h p cid cs cfg [[i f]|] own cx calls lg]; [destruct f|];
  cbn; repeat split; try discriminate; eauto.
Qed.

(** X5: [Destroy] raises only from [SetDestroy] (then nothing is torn down)
    or from the unguarded [subscriber.Destroy()] (then the subscriber, the
    owned context and the context are left in place); every other teardown
    failure is caught. *)
Theorem destroy_raises_only_from_unguarded_calls (c : client) (e : exn) :
  fst (destroy c) = Raise e ->
  (set_destroy c = Raise e /\ snd (destroy c) = c) \/
  (set_destroy c = Ok tt /\
   (exists r, subscriber c = Some r /\ res_destroy_fails r = true) /\
   subscriber (snd (destroy c)) = subscriber c /\
   ctxown (snd (destroy c)) = ctxown c /\ ctx (snd (destroy c)) = ctx c).
Proof.
  unfold destroy. destruct (set_destroy c) as [[]|e'] eqn:Hs.
  - destruct (destroy_commandsocket_fields c) as [A1 [A2 [A3 [A4 [A5 A6]]]]].
    set (c1 := destroy_commandsocket c) in *.
    destruct (destroy_configurationsocket_fields c1) as [B1 [B2 [B3 [B4 [B5 B6]]]]].
    set (c2 := destroy_configurationsocket c1) in *.
    destruct (destroy_subscriber_fields c2) as [C1 [C2 [C4 [C5 [C6 [C7 C8]]]]]].
    destruct (destroy_subscriber c2) as [[[]|e''] c3]; cbn [fst snd] in *; [discriminate|].
    intros H. injection H as ->. right.
    destruct (C8 _ eq_refl) as [S [r [Hr Hf]]].
    split; [reflexivity|].
    rewrite B3, A3 in Hr. split; [eauto|].
    rewrite S, B3, A3, C4, B4, A4, C5, B5, A5. tauto.
  - intros H. cbn in H. injection H as ->. left. tauto.
Qed.

Lemma destroy_calls_owned (c : client) (id : nat) :
  In id (destroy_calls (snd (destroy c))) ->
  In id (destroy_calls c) \/
  In id (ids_zc (commandsocket c) ++ ids_zc (configurationsocket c) ++
         ids_res (subscriber c) ++ ids_res (ctxown c))%list.
Proof.
  unfold destroy. destruct (set_destroy c) as [[]|e']; [|cbn; tauto].
  destruct (destroy_commandsocket_fields c) as [A1 [A2 [A3 [A4 [A5 A6]]]]].
  set (c1 := destroy_commandsocket c) in *.
  destruct (destroy_configurationsocket_fields c1) as [B1 [B2 [B3 [B4 [B5 B6]]]]].
  set (c2 := destroy_configurationsocket c1) in *.
  destruct (destroy_subscriber_fields c2) as [C1 [C2 [C4 [C5 [C6 _]]]]].
  destruct (destroy_subscriber c2) as [[[]|e''] c3]; cbn [fst snd] in *.
  - destruct (destroy_ctxown_fields c3) as [D1 [D2 [D3 [D4 D6]]]].
    cbn [destroy_calls with_ctx]. rewrite D6, C4, B4, A4, C6, B3, A3, B6, A2, A6.
    rewrite !in_app_iff. tauto.
  - rewrite C6, B3, A3, B6, A2, A6. rewrite !in_app_iff. tauto.
Qed.

(** X6: [__init__] creates both sockets on the client's context, at
    [commandport] and [commandport + 2].  Without a context argument it
    creates one, owns it and [Destroy] destroys it; with a context argument
    it owns nothing, [Destroy] never destroys that context (a resource
    distinct from the two sockets) and, when it succeeds, only drops the
    reference. *)
Theorem context_ownership (new_context : resource) (new_socket : socket_ctor)
    (h : string) (p : Z) (ctx_arg : option resource) (cid : pyval) :
  let c := init new_context new_socket h p ctx_arg cid in
  commandsocket c = Some (new_socket h p (ctx c)) /\
  configurationsocket c = Some (new_socket h (p + 2)%Z (ctx c)) /\
  (ctx_arg = None ->
   ctxown c = Some new_context /\ ctx c = Some new_context /\
   (set_destroy c = Ok tt -> In (res_id new_context) (destroy_calls (snd (destroy c))))) /\
  (forall x, ctx_arg = Some x ->
   ctxown c = None /\ ctx c = Some x /\
   (res_id x <> zc_id (new_socket h p (Some x)) ->
    res_id x <> zc_id (new_socket h (p + 2)%Z (Some x)) ->
    ~ In (res_id x) (destroy_calls (snd (destroy c))) /\
    (fst (destroy c) = Ok tt -> ctx (snd (destroy c)) = None))).
Proof.
  intros c. split; [|split; [|split]].
  - unfold c, init. destruct ctx_arg; reflexivity.
  - unfold c, init. destruct ctx_arg; reflexivity.
  - intros ->. split; [reflexivity|split; [reflexivity|]].
    intros Hs. unfold destroy. rewrite Hs. unfold c, init. cbn.
    destruct (new_socket h p (Some new_context)) as [i1 w1 [] g1];
    destruct (new_socket h (p + 2)%Z (Some new_context)) as [i2 w2 [] g2];
    destruct new_context as [i3 []]; cbn; auto.
  - intros x ->. split; [reflexivity|split; [reflexivity|]].
    intros N1 N2. split.
    + intros Hin. apply destroy_calls_owned in Hin. unfold c, init in Hin. cbn in Hin.
      intuition congruence.
    + unfold destroy. destruct (set_destroy c); [|discriminate].
      destruct (destroy_subscriber _) as [[[]|e] c3]; cbn; congruence.
Qed.

(** The teardown steps keep the client's address. *)
Lemma destroy_keeps_address (c : client) :
  hostname (snd (destroy c)) = hostname c /\ commandport (snd (destroy c)) = commandport c.
Proof.
  assert (H1 : forall c0, hostname (destroy_commandsocket c0) = hostname c0 /\
                          commandport (destroy_commandsocket c0) = commandport c0)
    by (intros [h p cid [[i w [] g]|] cfg sub own cx calls lg]; split; reflexivity).
  assert (H2 : forall c0, hostname (destroy_configurationsocket c0) = hostname c0 /\
                          commandport (destroy_configurationsocket c0) = commandport c0)
    by (intros [h p cid cs [[i w [] g]|] sub own cx calls lg]; split; reflexivity).
  assert (H3 : forall c0, hostname (snd (destroy_subscriber c0)) = hostname c0 /\
                          commandport (snd (destroy_subscriber c0)) = commandport c0)
    by (intros [h p cid cs cfg [[i []]|] own cx calls lg]; split; reflexivity).
  assert (H4 : forall c0, hostname (destroy_ctxown c0) = hostname c0 /\
                          commandport (destroy_ctxown c0) = commandport c0)
    by (intros [h p cid cs cfg sub [[i []]|] cx calls lg]; split; reflexivity).
  unfold destroy. destruct (set_destroy c) as [[]|e]; [|split; reflexivity].
  destruct (H1 c) as [E1 F1]. destruct (H2 (destroy_commandsocket c)) as [E2 F2].
  destruct (H3 (destroy_configurationsocket (destroy_commandsocket c))) as [E3 F3].
  destruct (destroy_subscriber (destroy_configurationsocket (destroy_commandsocket c)))
    as [[[]|e] c3]; cbn [snd] in *.
  - destruct (H4 c3) as [E4 F4]. cbn. rewrite E4, F4. split; congruence.
  - split; congruence.
Qed.

Lemma destroy_ok_fields (c c' : client) :
  destroy c = (Ok tt, c') ->
  commandsocket c' = survivor_zc (commandsocket c) /\
  configurationsocket c' = survivor_zc (configurationsocket c) /\
  subscriber c' = None /\ ctx c' = None.
Proof.
  unfold destroy. destruct (set_destroy c) as [[]|e]; [|discriminate].
  destruct (destroy_commandsocket_fields c) as [A1 [A2 [A3 [A4 [A5 A6]]]]].
  set (c1 := destroy_commandsocket c) in *.
  destruct (destroy_configurationsocket_fields c1) as [B1 [B2 [B3 [B4 [B5 B6]]]]].
  set (c2 := destroy_configurationsocket c1) in *.
  destruct (destroy_subscriber_fields c2) as [C1 [C2 [C4 [C5 [C6 [C7 _]]]]]].
  destruct (destroy_subscriber c2) as [[[]|e''] c3]; cbn [fst snd] in *; [|discriminate].
  destruct (destroy_ctxown_fields c3) as [D1 [D2 [D3 [D4 D6]]]].
  intros H. injection H as <-. cbn.
  rewrite D1, D2, D3, C1, C2, B1, B2, A1, A2, (C7 eq_refl). auto.
Qed.

(** X7: after a successful [Destroy] whose socket teardowns succeeded,
    [_ExecuteCommand], [_SendConfiguration], [_WaitForResponse] and
    [IsWaitingResponse] raise [AttributeError] (the sockets are None), while
    [GetPublishedState] still works: it creates a fresh subscriber at
    host:[commandport + 3] with no context. *)
Theorem client_unusable_after_destroy (c c' : client) (send : send_fn) (recv : recv_fn)
    (new_subscriber : subscriber_ctor) (spin : spin_fn) (cmd : dict) (ff : bool)
    (t t' command : pyval) (rj cp bw : bool) :
  destroy c = (Ok tt, c') ->
  (forall s, commandsocket c = Some s -> zc_destroy_fails s = false) ->
  (forall s, configurationsocket c = Some s -> zc_destroy_fails s = false) ->
  fst (execute_command send c' cmd ff t rj cp bw) = (Raise AttributeError, c') /\
  fst (send_configuration send c' cmd ff t cp rj) = (Raise AttributeError, c') /\
  wait_for_response recv c' rj t command = (Raise AttributeError, c') /\
  is_waiting_response c' = Raise AttributeError /\
  subscriber (snd (get_published_state new_subscriber spin c' t')) =
  Some (snd (spin (new_subscriber
                     (MFormat status_endpoint_template
                        (PList [PStr (hostname c); PInt (commandport c + 3)%Z])) None) t')).
Proof.
  intros Hd Hc Hf.
  destruct (destroy_ok_fields c c' Hd) as [A1 [A2 [A3 A4]]].
  destruct (destroy_keeps_address c) as [K1 K2]. rewrite Hd in K1, K2. cbn [snd] in K1, K2.
  assert (N1 : commandsocket c' = None).
  { rewrite A1. destruct (commandsocket c) as [s|]; [|reflexivity].
    cbn. rewrite (Hc s eq_refl). reflexivity. }
  assert (N2 : configurationsocket c' = None).
  { rewrite A2. destruct (configurationsocket c) as [s|]; [|reflexivity].
    cbn. rewrite (Hf s eq_refl). reflexivity. }
  split; [unfold execute_command; rewrite N1; reflexivity|].
  split; [unfold send_configuration; rewrite N2; reflexivity|].
  split; [unfold wait_for_response; rewrite N1; reflexivity|].
  split; [unfold is_waiting_response; rewrite N1; reflexivity|].
  unfold get_published_state, status_endpoint, statusport. rewrite A3, A4, K1, K2.
  destruct (spin _ t') as [raw sub']. reflexivity.
Qed.

(** X8: after [GetPublishedState] the client has a subscriber, and later
    calls never create another (the constructor no longer matters); the
    first one is created for host:[commandport + 3] on the client's context,
    and an existing subscriber is reused. *)
Theorem published_state_subscriber_created_once (new_subscriber new_subscriber' : subscriber_ctor)
    (spin : spin_fn) (c : client) (t : pyval) :
  let c1 := snd (get_published_state new_subscriber spin c t) in
  (exists r, subscriber c1 = Some r) /\
  (forall t', get_published_state new_subscriber' spin c1 t' =
              get_published_state new_subscriber spin c1 t') /\
  (subscriber c = None ->
   subscriber c1 =
   Some (snd (spin (new_subscriber
                      (MFormat status_endpoint_template
                         (PList [PStr (hostname c); PInt (commandport c + 3)%Z])) (ctx c)) t))) /\
  (forall r, subscriber c = Some r -> subscriber c1 = Some (snd (spin r t))).
Proof.
  intros c1.
  assert (S : subscriber c1 =
              Some (snd (spin (match subscriber c with
                               | Some r => r
                               | None => new_subscriber (status_endpoint c) (ctx c)
                               end) t))).
  { unfold c1, get_published_state. destruct (spin _ t). reflexivity. }
  split; [eexists; exact S|].
  split; [intros t'; unfold get_published_state; rewrite S; reflexivity|].
  split; [intros H; rewrite S, H; reflexivity|].
  intros r H. rewrite S, H. reflexivity.
Qed.

Lemma dict_get_update_in (d o : dict) (k : string) (v : pyval) :
  NoDup (dict_keys o) -> dict_get o k = Some v -> dict_get (dict_update d o) k = Some v.
Proof.
  revert d. induction o as [|[k' v'] o IH]; intros d Hnd Hg; cbn in *; [discriminate|].
  inversion Hnd as [|? ? Hnot Hnd']; subst.
  unfold dict_update in IH.
  destruct (String.eqb_spec k k') as [->|Hne].
  - injection Hg as <-. change (dict_get (dict_update (dict_set d k' v') o) k' = Some v').
    rewrite dict_get_update_notin by exact Hnot. apply dict_get_dict_set_same.
  - apply IH; assumption.
Qed.

Definition explicit_fields_win (p kwargs : dict) (fields : list (bool * string * pyval)) : Prop :=
  forall b k v, In (b, k, v) fields -> b = true -> ~ In k (dict_keys kwargs) ->
  dict_get p k = Some v.

Ltac explicit_field_tac :=
  let b := fresh "b" in let k := fresh "k" in let v := fresh "v" in
  let Hin := fresh "Hin" in let Hb := fresh "Hb" in let Hk := fresh "Hk" in
  intros b k v Hin Hb Hk; cbn [In] in Hin;
  repeat (destruct Hin as [Hin|Hin]; [injection Hin as <- <- <-|]); try contradiction;
  try (rewrite dict_get_update_notin by exact Hk);
  repeat first [ rewrite dict_get_set_if_other by discriminate
               | rewrite dict_get_dict_set_other by discriminate ];
  rewrite Hb; cbn [set_if]; apply dict_get_dict_set_same.

(** X9: in [StartObjectDetectionTask], [StartContainerDetectionTask] and
    [StartVisualizePointCloudTask] an explicitly given argument overrides
    the same key of [vminitparams] (boolean flags become 1 exactly when
    True), and in the first two any key passed in [kwargs] overrides both,
    provided the kwargs keys are distinct.  The one exception is
    [targetupdatename] of [StartObjectDetectionTask]: it is written before
    [command.update(vminitparams)], so an entry of [vminitparams] replaces
    it. *)
Theorem start_task_field_precedence :
  (forall v, one_if_true v = PInt 1 <-> v = PBool true) /\
  (forall (vminitparams kwargs : dict) (a : sodt_args),
   explicit_fields_win (start_object_detection_task_command vminitparams a kwargs) kwargs
     [(is_not_none (sodt_locationName a), "locationName", sodt_locationName a);
      (truthy (sodt_taskId a), "taskId", sodt_taskId a);
      (is_not_none (sodt_ignoreocclusion a), "ignoreocclusion", one_if_true (sodt_ignoreocclusion a));
      (is_not_none (sodt_targetDynamicDetectorParameters a), "targetDynamicDetectorParameters", sodt_targetDynamicDetectorParameters a);
      (is_not_none (sodt_detectionstarttimestamp a), "detectionstarttimestamp", sodt_detectionstarttimestamp a);
      (is_not_none (sodt_locale a), "locale", sodt_locale a);
      (is_not_none (sodt_sendVerificationPointCloud a), "sendVerificationPointCloud", sodt_sendVerificationPointCloud a);
      (is_not_none (sodt_stopOnNotNeedContainer a), "stopOnNotNeedContainer", sodt_stopOnNotNeedContainer a);
      (is_not_none (sodt_maxnumdetection a), "maxnumdetection", sodt_maxnumdetection a);
      (is_not_none (sodt_maxnumfastdetection a), "maxnumfastdetection", sodt_maxnumfastdetection a);
      (is_not_none (sodt_numthreads a), "numthreads", sodt_numthreads a);
      (is_not_none (sodt_cycleIndex a), "cycleIndex", sodt_cycleIndex a);
      (is_not_none (sodt_ignorePlanningState a), "ignorePlanningState", sodt_ignorePlanningState a);
      (is_not_none (sodt_ignoreDetectionFileUpdateChange a), "ignoreDetectionFileUpdateChange", sodt_ignoreDetectionFileUpdateChange a);
      (is_not_none (sodt_forceClearRegion a), "forceClearRegion", sodt_forceClearRegion a);
      (is_not_none (sodt_detectionTriggerMode a), "detectionTriggerMode", sodt_detectionTriggerMode a);
      (is_not_none (sodt_useLocationState a), "useLocationState", sodt_useLocationState a)] /\
   (NoDup (dict_keys kwargs) -> forall k v, dict_get kwargs k = Some v ->
    dict_get (start_object_detection_task_command vminitparams a kwargs) k = Some v) /\
   (NoDup (dict_keys vminitparams) -> ~ In "targetupdatename" (dict_keys kwargs) ->
    dict_get (start_object_detection_task_command vminitparams a kwargs) "targetupdatename" =
    Some (dict_get_default vminitparams "targetupdatename" (sodt_targetupdatename a)))) /\
  (forall (vminitparams kwargs : dict) (a : scdt_args),
   explicit_fields_win (start_container_detection_task_command vminitparams a kwargs) kwargs
     [(truthy (scdt_taskId a), "taskId", scdt_taskId a);
      (is_not_none (scdt_locationName a), "locationName", scdt_locationName a);
      (is_not_none (scdt_ignoreocclusion a), "ignoreocclusion", one_if_true (scdt_ignoreocclusion a));
      (is_not_none (scdt_targetDynamicDetectorParameters a), "targetDynamicDetectorParameters", scdt_targetDynamicDetectorParameters a);
      (is_not_none (scdt_detectionstarttimestamp a), "detectionstarttimestamp", scdt_detectionstarttimestamp a);
      (is_not_none (scdt_locale a), "locale", scdt_locale a);
      (is_not_none (scdt_numthreads a), "numthreads", scdt_numthreads a);
      (is_not_none (scdt_cycleIndex a), "cycleIndex", scdt_cycleIndex a);
      (is_not_none (scdt_ignorePlanningState a), "ignorePlanningState", scdt_ignorePlanningState a);
      (is_not_none (scdt_stopOnNotNeedContainer a), "stopOnNotNeedContainer", scdt_stopOnNotNeedContainer a);
      (is_not_none (scdt_useLocationState a), "useLocationState", scdt_useLocationState a)] /\
   (NoDup (dict_keys kwargs) -> forall k v, dict_get kwargs k = Some v ->
    dict_get (start_container_detection_task_command vminitparams a kwargs) k = Some v)) /\
  (forall (vminitparams : dict) (a : svpct_args) (p : dict),
   start_visualize_point_cloud_task_command vminitparams a = Ok p ->
   explicit_fields_win p []
     [(is_not_none (svpct_locationName a), "locationName", svpct_locationName a);
      (is_not_none (svpct_pointsize a), "pointsize", svpct_pointsize a);
      (is_not_none (svpct_ignoreocclusion a), "ignoreocclusion", one_if_true (svpct_ignoreocclusion a));
      (is_not_none (svpct_newerthantimestamp a), "newerthantimestamp", svpct_newerthantimestamp a);
      (is_not_none (svpct_request a), "request", one_if_true (svpct_request a));
      (is_not_none (svpct_filteringsubsample a), "filteringsubsample", svpct_filteringsubsample a);
      (is_not_none (svpct_filteringvoxelsize a), "filteringvoxelsize", svpct_filteringvoxelsize a);
      (is_not_none (svpct_filteringstddev a), "filteringstddev", svpct_filteringstddev a);
      (is_not_none (svpct_filteringnumnn a), "filteringnumnn", svpct_filteringnumnn a)]).
Proof.
  split; [|split; [|split]].
  - intros v. unfold one_if_true. destruct v as [| [|] | | | | | | |]; cbn; split;
      first [reflexivity | discriminate | intros _; reflexivity | intros H; discriminate H].
  - intros vminitparams kwargs a. split; [|split].
    + unfold start_object_detection_task_command. explicit_field_tac.
    + intros Hnd k v Hk. apply dict_get_update_in; assumption.
    + intros Hnd Hk. unfold start_object_detection_task_command.
      rewrite dict_get_update_notin by exact Hk.
      repeat rewrite dict_get_set_if_other by discriminate.
      unfold dict_get_default.
      destruct (dict_get vminitparams "targetupdatename") as [v|] eqn:Hv.
      * apply dict_get_update_in; assumption.
      * rewrite dict_get_update_notin; [reflexivity|].
        intros Hin. apply dict_get_none_keys in Hv.
        assert (E : existsb (String.eqb "targetupdatename") (dict_keys vminitparams) = true)
          by (apply existsb_exists; exists "targetupdatename"; split;
              [exact Hin|apply String.eqb_refl]).
        congruence.
  - intros vminitparams kwargs a. split.
    + unfold start_container_detection_task_command. explicit_field_tac.
    + intros Hnd k v Hk. apply dict_get_update_in; assumption.
  - intros vminitparams a p. unfold start_visualize_point_cloud_task_command.
    destruct (is_not_none (svpct_sensorSelectionInfos a)).
    + destruct (py_list (svpct_sensorSelectionInfos a)) as [l|e]; cbn [bind]; [|discriminate].
      intros H; injection H as <-. explicit_field_tac.
    + cbn [bind]. intros H; injection H as <-. explicit_field_tac.
Qed.

(** X10: [StartVisualizePointCloudTask] converts [sensorSelectionInfos] with
    [list()]: a string gives its characters, a dict its keys and a list
    itself, while a bool or a number makes the call raise [TypeError] before
    anything is sent; a None value leaves the [vminitparams] entry. *)
Theorem visualize_sensor_selection_conversion (send : send_fn) (c : client)
    (vminitparams : dict) (a : svpct_args) (timeout : pyval) :
  (match svpct_sensorSelectionInfos a with
   | PBool _ | PInt _ | PFloat _ _ | PFloatInf _ | PFloatNaN =>
       StartVisualizePointCloudTask send c vminitparams a timeout = (Raise TypeError, c)
   | _ => True
   end) /\
  (forall p, start_visualize_point_cloud_task_command vminitparams a = Ok p ->
   dict_get p "sensorSelectionInfos" =
   match svpct_sensorSelectionInfos a with
   | PStr s => Some (PList (string_chars s))
   | PDict d => Some (PList (map (fun kv => PStr (fst kv)) d))
   | PList l => Some (PList l)
   | _ => dict_get (dict_update [("command", PStr "StartVisualizePointCloudTask")] vminitparams)
                   "sensorSelectionInfos"
   end).
Proof.
  unfold StartVisualizePointCloudTask, start_visualize_point_cloud_task_command.
  split.
  - destruct (svpct_sensorSelectionInfos a); reflexivity.
  - intros p.
    destruct (svpct_sensorSelectionInfos a) eqn:Hs; cbn [is_not_none py_list bind];
      try discriminate; intros H; injection H as <-;
      repeat rewrite dict_get_set_if_other by discriminate;
      first [ apply dict_get_dict_set_same | reflexivity ].
Qed.

(** X11: when [SetDestroy] succeeds and the subscriber's teardown does not
    fail, [Destroy] succeeds and logs one exception message for each
    teardown step that failed, in the order command socket, configuration
    socket, owned context. *)
Theorem destroy_logs_each_caught_failure (c : client) :
  set_destroy c = Ok tt ->
  match subscriber c with Some r => res_destroy_fails r = false | None => True end ->
  fst (destroy c) = Ok tt /\
  logged (snd (destroy c)) =
  (failure_log_res (ctxown c) "problem destroying ctxown: %s" ++
   failure_log_zc (configurationsocket c) "problem destroying configurationsocket: %s" ++
   failure_log_zc (commandsocket c) "problem destroying commandsocket: %s" ++
   logged c)%list.
Proof. exact (destroy_ok_log c). Qed.

(** ** Witnesses of X1-X11 *)

Lemma json_mode_validation_witness :
  process_response PNone PNone true = Raise TypeError /\
  process_response (PList [PStr "error"]) PNone true = Raise TypeError /\
  process_response (PDict [("result", PInt 1)]) PNone true = Ok (PDict [("result", PInt 1)]).
Proof.
  destruct (json_mode_validation PNone PNone) as [_ [H1 _]].
  destruct (json_mode_validation (PList [PStr "error"]) PNone) as [_ [_ H2]].
  destruct (json_mode_validation (PDict [("result", PInt 1)]) PNone) as [H3 _].
  split; [apply H1; left; reflexivity|].
  split; [apply (H2 [PStr "error"] eq_refl); left; reflexivity|].
  apply H3. split; reflexivity.
Defined.

Definition raw_ok_reply : string := "{" ++ dq ++ "ok" ++ dq ++ ":1}".

Lemma raw_mode_success_invariants_witness :
  process_response (PStr raw_ok_reply) PNone false = Ok (PDict [("ok", PInt 1)]) /\
  (exists n, py_len (PDict [("ok", PInt 1)]) = Ok (S n)) /\
  ~ In "error" (dict_keys [("ok", PInt 1)]).
Proof.
  assert (E : process_response (PStr raw_ok_reply) PNone false = Ok (PDict [("ok", PInt 1)]))
    by reflexivity.
  destruct (raw_mode_success_invariants _ _ _ E) as [H1 H2].
  split; [exact E|split; [exact H1|exact (H2 _ eq_refl)]].
Defined.

Definition idle_socket : zmqclient := mkZmqClient 1 false false false.
Definition pending_socket : zmqclient := mkZmqClient 1 true false false.

(** A transport that acknowledges every send and leaves a reply pending. *)
Definition send_ack : send_fn := fun _ _ _ _ _ _ _ => (Ok (PBool true), pending_socket).

Definition recv_empty_object : recv_fn := fun _ _ _ => (Received (PStr "{}"), idle_socket).

Definition vision_client (cid : pyval) : client :=
  {| hostname := "127.0.0.1"; commandport := 7004; callerid := cid;
     commandsocket := Some idle_socket; configurationsocket := Some idle_socket;
     subscriber := None; ctxown := None; ctx := None;
     destroy_calls := []; logged := [] |}.

Lemma deferred_images_validated_on_wait_witness :
  fst (GetLatestDetectionResultImages send_ack (vision_client PNone) PNone PNone PNone
         (PInt 0) PNone (PBool false) PNone PNone false (PInt 2)) = Ok (PBool true) /\
  fst (WaitForGetLatestDetectionResultImages recv_empty_object
         (snd (GetLatestDetectionResultImages send_ack (vision_client PNone) PNone PNone PNone
                 (PInt 0) PNone (PBool false) PNone PNone false (PInt 2))) (PInt 2))
  = process_response (PStr "{}") PNone false.
Proof.
  pose proof (deferred_images_validated_on_wait send_ack recv_empty_object (vision_client PNone)
                idle_socket pending_socket idle_socket PNone PNone PNone (PInt 0) PNone
                (PBool false) PNone PNone (PInt 2) (PInt 2) (PBool true) (PStr "{}")
                eq_refl eq_refl eq_refl eq_refl) as H.
  destruct (GetLatestDetectionResultImages send_ack (vision_client PNone) PNone PNone PNone
              (PInt 0) PNone (PBool false) PNone PNone false (PInt 2)) as [res1 c1].
  destruct H as [H1 [H2 _]]. split; assumption.
Defined.

Definition command_with_callerid : dict := [("command", PStr "Ping"); ("callerid", PStr "old")].

Lemma callerid_written_into_caller_dict_witness :
  let cmd1 := snd (execute_command send_ack (vision_client (PStr "A")) command_with_callerid
                     false (PInt 2) true true true) in
  dict_get cmd1 "callerid" = Some (PStr "A") /\
  snd (execute_command send_ack (vision_client PNone) cmd1 false (PInt 2) true true true) = cmd1.
Proof.
  pose proof (callerid_written_into_caller_dict send_ack send_ack (vision_client (PStr "A"))
                (vision_client PNone) command_with_callerid false false (PInt 2) (PInt 2)
                true true true true true true eq_refl) as H.
  cbv zeta in H. cbv zeta.
  destruct H as [H1 [_ [_ H4]]]. split; [exact H1|exact (proj1 (H4 eq_refl))].
Defined.

Lemma destroy_raises_only_from_unguarded_calls_witness :
  fst (destroy client_failing_subscriber) = Raise (ResourceError "subscriber") /\
  ctxown (snd (destroy client_failing_subscriber)) = ctxown client_failing_subscriber /\
  ctx (snd (destroy client_failing_subscriber)) = ctx client_failing_subscriber.
Proof.
  assert (E : fst (destroy client_failing_subscriber) = Raise (ResourceError "subscriber"))
    by reflexivity.
  destruct (destroy_raises_only_from_unguarded_calls _ _ E) as [[H _]|[_ [_ [_ [H1 H2]]]]].
  - discriminate H.
  - split; [exact E|split; assumption].
Defined.

(** A context constructor and a socket constructor with distinct resource ids. *)
Definition fresh_context : resource := {| res_id := 9; res_destroy_fails := false |}.
Definition caller_context : resource := {| res_id := 5; res_destroy_fails := false |}.

Definition port_socket : socket_ctor :=
  fun _ p _ => distinct_ids_socket (if Z.eqb p 7004 then 1 else 2) false.

Lemma context_ownership_witness :
  In 9 (destroy_calls (snd (destroy (init fresh_context port_socket "127.0.0.1" 7004 None PNone)))) /\
  ~ In 5 (destroy_calls (snd (destroy (init fresh_context port_socket "127.0.0.1" 7004
                                         (Some caller_context) PNone)))).
Proof.
  destruct (context_ownership fresh_context port_socket "127.0.0.1" 7004 None PNone)
    as [_ [_ [H1 _]]].
  destruct (context_ownership fresh_context port_socket "127.0.0.1" 7004 (Some caller_context) PNone)
    as [_ [_ [_ H2]]].
  split.
  - apply (H1 eq_refl). reflexivity.
  - destruct (H2 caller_context eq_refl) as [_ [_ H]].
    apply H; discriminate.
Defined.

Lemma client_unusable_after_destroy_witness :
  is_waiting_response (snd (destroy sound_client)) = Raise AttributeError /\
  fst (execute_command send_ack (snd (destroy sound_client)) [("command", PStr "Ping")]
         false (PInt 2) true true true) = (Raise AttributeError, snd (destroy sound_client)).
Proof.
  assert (Hc : forall s, commandsocket sound_client = Some s -> zc_destroy_fails s = false)
    by (intros s Hs; injection Hs as <-; reflexivity).
  assert (Hg : forall s, configurationsocket sound_client = Some s -> zc_destroy_fails s = false)
    by (intros s Hs; injection Hs as <-; reflexivity).
  destruct (client_unusable_after_destroy sound_client (snd (destroy sound_client)) send_ack
              recv_empty_object (fun _ _ => fresh_context) (fun r _ => (Ok PNone, r))
              [("command", PStr "Ping")] false (PInt 2) (PInt 2) PNone true true true
              eq_refl Hc Hg)
    as [H1 [_ [_ [H4 _]]]].
  split; assumption.
Defined.

Lemma published_state_subscriber_created_once_witness :
  subscriber (snd (get_published_state (fun _ _ => fresh_context) (fun r _ => (Ok PNone, r))
                     (vision_client PNone) (PInt 2))) = Some fresh_context.
Proof.
  destruct (published_state_subscriber_created_once (fun _ _ => fresh_context)
              (fun _ _ => caller_context) (fun r _ => (Ok PNone, r)) (vision_client PNone) (PInt 2))
    as [_ [_ [H _]]].
  exact (H eq_refl).
Defined.

Definition sodt_ignoring_occlusion : sodt_args :=
  {| sodt_taskId := PNone; sodt_locationName := PNone;
     sodt_ignoreocclusion := PBool true; sodt_targetDynamicDetectorParameters := PNone;
     sodt_detectionstarttimestamp := PNone; sodt_locale := PNone;
     sodt_maxnumfastdetection := PInt 1; sodt_maxnumdetection := PInt 0;
     sodt_stopOnNotNeedContainer := PNone; sodt_targetupdatename := PStr "";
     sodt_numthreads := PNone; sodt_cycleIndex := PNone;
     sodt_ignorePlanningState := PNone; sodt_ignoreDetectionFileUpdateChange := PNone;
     sodt_sendVerificationPointCloud := PNone; sodt_forceClearRegion := PNone;
     sodt_detectionTriggerMode := PNone; sodt_useLocationState := PNone |}.

Definition svpct_sample (infos : pyval) : svpct_args :=
  {| svpct_locationName := PStr "loc"; svpct_sensorSelectionInfos := infos;
     svpct_pointsize := PNone; svpct_ignoreocclusion := PNone;
     svpct_newerthantimestamp := PNone; svpct_request := PBool true;
     svpct_filteringsubsample := PNone; svpct_filteringvoxelsize := PNone;
     svpct_filteringstddev := PNone; svpct_filteringnumnn := PNone |}.

Lemma start_task_field_precedence_witness :
  dict_get (start_object_detection_task_command [("ignoreocclusion", PStr "x")]
              sodt_ignoring_occlusion []) "ignoreocclusion" = Some (PInt 1) /\
  dict_get (start_object_detection_task_command [] sodt_defaults [("maxnumdetection", PInt 5)])
           "maxnumdetection" = Some (PInt 5) /\
  dict_get (start_object_detection_task_command [("targetupdatename", PStr "a")] sodt_defaults [])
           "targetupdatename" = Some (PStr "a") /\
  match start_visualize_point_cloud_task_command [("request", PInt 0)] (svpct_sample PNone) with
  | Ok p => dict_get p "request" = Some (PInt 1)
  | Raise _ => False
  end.
Proof.
  destruct start_task_field_precedence as [_ [Hs [_ Hv]]].
  split; [|split; [|split]].
  - destruct (Hs [("ignoreocclusion", PStr "x")] [] sodt_ignoring_occlusion) as [H _].
    apply (H true "ignoreocclusion" (PInt 1)); [right; right; left; reflexivity
                                                | reflexivity | intros []].
  - destruct (Hs [] [("maxnumdetection", PInt 5)] sodt_defaults) as [_ [H _]].
    apply H; [constructor; [intros []|constructor] | reflexivity].
  - destruct (Hs [("targetupdatename", PStr "a")] [] sodt_defaults) as [_ [_ H]].
    apply H; [constructor; [intros []|constructor] | intros []].
  - destruct (start_visualize_point_cloud_task_command [("request", PInt 0)] (svpct_sample PNone))
      as [p|e] eqn:E; [|vm_compute in E; discriminate E].
    apply (Hv _ _ _ E true "request" (PInt 1));
      [right; right; right; right; left; reflexivity | reflexivity | intros []].
Defined.

Lemma visualize_sensor_selection_conversion_witness :
  StartVisualizePointCloudTask send_ack (vision_client PNone) [] (svpct_sample (PInt 3)) (PInt 2)
  = (Raise TypeError, vision_client PNone) /\
  match start_visualize_point_cloud_task_command [] (svpct_sample (PStr "ab")) with
  | Ok p => dict_get p "sensorSelectionInfos" = Some (PList [PStr "a"; PStr "b"])
  | Raise _ => False
  end.
Proof.
  destruct (visualize_sensor_selection_conversion send_ack (vision_client PNone) []
              (svpct_sample (PInt 3)) (PInt 2)) as [H1 _].
  destruct (visualize_sensor_selection_conversion send_ack (vision_client PNone) []
              (svpct_sample (PStr "ab")) (PInt 2)) as [_ H2].
  split; [exact H1|].
  destruct (start_visualize_point_cloud_task_command [] (svpct_sample (PStr "ab")))
    as [p|e] eqn:E; [|vm_compute in E; discriminate E].
  exact (H2 p eq_refl).
Defined.

Lemma destroy_logs_each_caught_failure_witness :
  fst (destroy client_failing_commandsocket) = Ok tt /\
  logged (snd (destroy client_failing_commandsocket)) = ["problem destroying commandsocket: %s"].
Proof.
  destruct (destroy_logs_each_caught_failure client_failing_commandsocket eq_refl eq_refl)
    as [H1 H2].
  split; [exact H1|rewrite H2; reflexivity].
Defined.
